(** * aiojlrpy: the STOMP session layer (stomp.py) and the websocket entry
    point of connection.py, embedded in Rocq.

    Python [str] values are modelled as [string] (sequences of code points
    below 256), Python [int] as [Z], a [dict] as an association list in
    insertion order with unique keys, exceptions as values of [pyexc]. *)

From Stdlib Require Import List String Ascii ZArith Lia Bool DecimalString Sorted.
From Stdlib Require Import Floats.SpecFloat.
Import ListNotations.

Set Warnings "-register-all".

Local Open Scope string_scope.
Local Open Scope list_scope.

(** Python's [+] on strings; [++] is kept for lists. *)
Infix "+:+" := String.append (at level 60, right associativity).

(** ** Python strings *)

Module PyStr.

Definition LF : ascii := "010"%char.
Definition NULL : ascii := "000"%char.
Definition COLON : ascii := ":"%char.
Definition DQUOTE : ascii := "034"%char.

Definition char (c : ascii) : string := String c EmptyString.

(** [s.split(sep)] for a one-character separator: never the empty list. *)
Fixpoint split (sep : ascii) (s : string) : list string :=
  match s with
  | EmptyString => [EmptyString]
  | String c s' =>
      if Ascii.eqb c sep then EmptyString :: split sep s'
      else match split sep s' with
           | [] => [char c]
           | h :: t => String c h :: t
           end
  end.

(** [str.isspace] on one character, for code points below 256. *)
Definition isspace (c : ascii) : bool :=
  let n := nat_of_ascii c in
  (((9 <=? n) && (n <=? 13)) || ((28 <=? n) && (n <=? 32))
   || (n =? 133) || (n =? 160))%nat.

Fixpoint lstrip (s : string) : string :=
  match s with
  | EmptyString => EmptyString
  | String c s' => if isspace c then lstrip s' else s
  end.

Fixpoint rstrip (s : string) : string :=
  match s with
  | EmptyString => EmptyString
  | String c s' =>
      match rstrip s' with
      | EmptyString => if isspace c then EmptyString else char c
      | r => String c r
      end
  end.

(** [s.strip()] *)
Definition strip (s : string) : string := rstrip (lstrip s).

(** [c in string.printable]: digits, letters, punctuation and
    [" \t\n\r\x0b\x0c"]. *)
Definition printable (c : ascii) : bool :=
  let n := nat_of_ascii c in
  (((32 <=? n) && (n <=? 126)) || ((9 <=? n) && (n <=? 13)))%nat.

Fixpoint filter (p : ascii -> bool) (s : string) : string :=
  match s with
  | EmptyString => EmptyString
  | String c s' => if p c then String c (filter p s') else filter p s'
  end.

(** [sep not in s] for a one-character [sep]. *)
Fixpoint lacks (sep : ascii) (s : string) : bool :=
  match s with
  | EmptyString => true
  | String c s' => negb (Ascii.eqb c sep) && lacks sep s'
  end.

(** [str(n)] for an [int]. *)
Definition of_int (n : Z) : string := NilZero.string_of_int (Z.to_int n).

(** Truth value of a [str]: non-empty. *)
Definition truthy (s : string) : bool :=
  match s with EmptyString => false | _ => true end.

End PyStr.

(** ** Python dicts: insertion-ordered, one entry per key *)

Module PyDict.

Definition dict (V : Type) : Type := list (string * V).

Section Ops.
Context {V : Type}.

(** [d.get(k)] *)
Fixpoint get (k : string) (d : dict V) : option V :=
  match d with
  | [] => None
  | (k', v) :: d' => if String.eqb k k' then Some v else get k d'
  end.

(** [d[k] = v]: an existing key keeps its position, a new key goes last. *)
Fixpoint set (k : string) (v : V) (d : dict V) : dict V :=
  match d with
  | [] => [(k, v)]
  | (k', v') :: d' =>
      if String.eqb k k' then (k', v) :: d' else (k', v') :: set k v d'
  end.

(** The mapping left by [d.pop(k)] or [del d[k]] when [k] is present. *)
Fixpoint remove (k : string) (d : dict V) : dict V :=
  match d with
  | [] => []
  | (k', v') :: d' =>
      if String.eqb k k' then d' else (k', v') :: remove k d'
  end.

(** [d.update(other)]: the entries of [other] are assigned in its order. *)
Definition update (other d : dict V) : dict V :=
  fold_left (fun acc kv => set (fst kv) (snd kv) acc) other d.

Definition keys (d : dict V) : list string := map fst d.
Definition values (d : dict V) : list V := map snd d.

Definition mem (k : string) (d : dict V) : bool :=
  match get k d with Some _ => true | None => false end.

(** The representation invariant of a Python dict. *)
Definition wf (d : dict V) : Prop := NoDup (keys d).
End Ops.

End PyDict.

Import PyDict.

(** ** Exceptions and results *)

Inductive pyexc : Type :=
| IndexError
| ValueError
| KeyError (key : string)
| TypeError
| AttributeError
| JSONDecodeError
| TransportError (info : string)
| CallbackError (info : string)
| JLRException (message : string).

(** The outcome of running a piece of code: a value, a raised exception, or
    a poll loop that is still waiting when the fuel runs out. *)
Inductive result (A : Type) : Type :=
| Ok (a : A)
| Raise (e : pyexc)
| Waiting.
Arguments Ok {A} a.
Arguments Raise {A} e.
Arguments Waiting {A}.

(** ** stomp.py: commands and the frame codec *)

Inductive STOMPCommands : Type :=
| CONNECT | CONNECTED | MESSAGE | DISCONNECT | SUBSCRIBE | UNSUBSCRIBE | SEND.

(** The [StrEnum] value of a command. *)
Definition value (c : STOMPCommands) : string :=
  match c with
  | CONNECT => "CONNECT"
  | CONNECTED => "CONNECTED"
  | MESSAGE => "MESSAGE"
  | DISCONNECT => "DISCONNECT"
  | SUBSCRIBE => "SUBSCRIBE"
  | UNSUBSCRIBE => "UNSUBSCRIBE"
  | SEND => "SEND"
  end.

Definition header_line (kv : string * string) : string :=
  fst kv +:+ PyStr.char PyStr.COLON +:+ snd kv +:+ PyStr.char PyStr.LF.

(** The list [lines] that [_transmit] builds before joining it. [None]
    stands for an argument left at its default. *)
Definition frame_lines (command : option string)
    (headers : option (dict string)) (msg : option string) : list string :=
  (match command with
   | Some c => if PyStr.truthy c then [c +:+ PyStr.char PyStr.LF] else []
   | None => []
   end)
  ++ (match headers with
      | Some ((_ :: _) as hs) => map header_line hs ++ [PyStr.char PyStr.LF]
      | _ => []
      end)
  ++ (match msg with
      | Some m => if PyStr.truthy m then [m] else []
      | None => []
      end)
  ++ [PyStr.char PyStr.NULL].

(** [frame = "".join(lines)] in [_transmit]. *)
Definition frame_text (command : option string)
    (headers : option (dict string)) (msg : option string) : string :=
  String.concat "" (frame_lines command headers msg).

(** The [while lines[i] != ""] loop of [_parse_message], on the lines from
    index [i] on. It returns the headers and the lines after the empty one. *)
Fixpoint parse_headers (lines : list string) (headers : dict string)
  : result (dict string * list string) :=
  match lines with
  | [] => Raise IndexError
  | l :: rest =>
      if String.eqb l "" then Ok (headers, rest)
      else match PyStr.split PyStr.COLON l with
           | [key; val] => parse_headers rest (PyDict.set key val headers)
           | _ => Raise ValueError
           end
  end.

Definition _parse_message (frame : string)
  : result (string * dict string * option string) :=
  match PyStr.split PyStr.LF frame with
  | [] => Raise IndexError
  | l0 :: lines =>
      let command := PyStr.strip l0 in
      match parse_headers lines [] with
      | Ok (headers, rest) =>
          match rest with
          | [] => Raise IndexError
          | b :: _ =>
              Ok (command, headers,
                  if String.eqb b (PyStr.char PyStr.NULL) then None else Some b)
          end
      | Raise e => Raise e
      | Waiting => Waiting
      end
  end.

(** ** Python values that flow through the client

    What [json.loads] returns, and what ends up in a header dict: [JNull] is
    Python's [None], [JDict] a dict with string keys. *)

Inductive json : Type :=
| JNull
| JBool (b : bool)
| JInt (n : Z)
| JFloat (x : spec_float)
| JStr (s : string)
| JList (items : list json)
| JDict (fields : list (string * json)).

(** Truth value of a Python value, as tested by [if x] and [x if x else y]. *)
Definition truthy (v : json) : bool :=
  match v with
  | JNull => false
  | JBool b => b
  | JInt n => negb (n =? 0)%Z
  | JFloat (S754_zero _) => false
  | JFloat _ => true
  | JStr s => PyStr.truthy s
  | JList items => match items with [] => false | _ => true end
  | JDict fields => match fields with [] => false | _ => true end
  end.

Definition datetime : Type := nat.

Record StatusMessage : Type := {
  command : string;
  received : datetime;
  message_timestamp : json;
  vin : json;
  service : json;
  topic : option string;
  data : json
}.

(** A caller-supplied callable: [is_coroutine] is what
    [asyncio.iscoroutinefunction] answers, [outcome] the exception its body
    raises on a message, if any. A callback does not call back into the
    client. *)
Record Callback : Type := {
  cb_name : string;
  is_coroutine : bool;
  outcome : StatusMessage -> option pyexc
}.

Record Subscription : Type := {
  sub_id : Z;
  callback : Callback
}.

(** One invocation [func(status_message)]; [awaited] tells whether the
    result was awaited. *)
Record Call : Type := {
  callee : Callback;
  argument : StatusMessage;
  awaited : bool
}.

(** What was handed to [ws.send_message] and accepted: a frame marshalled
    by [_transmit], or a bare text. *)
Inductive Sent : Type :=
| Frame (cmd : option string) (headers : dict string) (msg : option string)
| Text (text : string).

Definition wire (s : Sent) : string :=
  match s with
  | Frame cmd headers msg => frame_text cmd (Some headers) msg
  | Text text => text
  end.

(** Signals of the transport, each bound to one callback of the client. *)
Inductive ws_event : Type :=
| WsOpen
| WsClose
| WsError (error : pyexc)
| WsMessage (message : string).

(** ** The collaborators that are not part of the session layer

    [WebsocketHandler] (aiojlrpy/websocket.py), [json.loads],
    [urlparse(url).hostname], the REST call behind [get_websocket_url] and
    the destination templates of aiojlrpy/const.py are taken as parameters.
    [wsh_sleep] is what the transport task does while the client awaits
    [asyncio.sleep]: it may fire callbacks of the client. *)
Class Env : Type := {
  ws_state : Type;
  wsh_new : string -> string -> string -> string -> ws_state;
  wsh_connect : ws_state -> ws_state;
  wsh_send_message : string -> ws_state -> result unit * ws_state;
  wsh_ws_connected : ws_state -> bool;
  wsh_sleep : ws_state -> ws_state * list ws_event;
  wsh_callback_raised : pyexc -> ws_state -> ws_state;
  json_loads : string -> result json;
  hostname : string -> json;
  request_websocket_url : string -> string -> result string;
  WS_DESTINATION_DEVICE : string -> string;
  WS_DESTINATION_VIN : string -> string
}.

(** [self._filter_non_printable(raw_str)]; [None] is not iterable. *)
Definition _filter_non_printable (raw_str : option string) : result string :=
  match raw_str with
  | Some s => Ok (PyStr.filter PyStr.printable s)
  | None => Raise TypeError
  end.

(** [self._get_status_message(command, headers, body)] at time [clock]:
    [body.get(key)] is [None] for a missing key and raises [AttributeError]
    when [body] is not a dict. *)
Definition _get_status_message (clock : datetime) (command : string)
    (headers : dict string) (body : json) : result StatusMessage :=
  match body with
  | JDict fields =>
      let get key :=
        match PyDict.get key fields with Some v => v | None => JNull end in
      Ok {| command := command;
            received := clock;
            message_timestamp := get "t";
            vin := get "v";
            service := get "st";
            topic := PyDict.get "destination" headers;
            data := if truthy (get "a") then get "a" else body |}
  | _ => Raise AttributeError
  end.

(** [max(values, key=attrgetter("sub_id")).sub_id] on a non-empty list. *)
Fixpoint max_sub_id (first : Subscription) (others : list Subscription) : Z :=
  match others with
  | [] => sub_id first
  | s :: others' =>
      if (sub_id first <? sub_id s)%Z then max_sub_id s others'
      else max_sub_id first others'
  end.

(** [self._get_next_sub_id()] on the registry. *)
Definition _get_next_sub_id (subscriptions : dict Subscription) : Z :=
  match PyDict.values subscriptions with
  | [] => 1
  | s :: others => max_sub_id s others + 1
  end.

(** The string concatenations of the header loop of [_transmit]:
    [key + ":" + headers[key] + LF] raises [TypeError] on a value that is
    not a [str]. *)
Fixpoint str_headers (headers : dict json) : result (dict string) :=
  match headers with
  | [] => Ok []
  | (k, JStr v) :: rest =>
      match str_headers rest with
      | Ok hs => Ok ((k, v) :: hs)
      | other => other
      end
  | _ => Raise TypeError
  end.

(** ** JLRStompClient *)

Section Client.
Context {E : Env}.

(** The attributes of a [JLRStompClient], with three ghost fields: the
    texts accepted by the transport ([outbox], oldest first), the callback
    invocations ([calls], oldest first) and the time ([clock]). *)
Record client : Type := {
  url : string;
  access_token : string;
  email : string;
  device_id : string;
  _subscriptions : dict Subscription;
  connected : bool;
  ws : ws_state;
  outbox : list Sent;
  calls : list Call;
  clock : datetime
}.

(** [JLRStompClient(url, access_token, email, device_id)] *)
Definition new_client (url access_token email device_id : string) : client :=
  {| url := url; access_token := access_token; email := email;
     device_id := device_id; _subscriptions := []; connected := false;
     ws := wsh_new url access_token email device_id;
     outbox := []; calls := []; clock := 0 |}.

Definition set_subscriptions (subs : dict Subscription) (c : client) : client :=
  {| url := url c; access_token := access_token c; email := email c;
     device_id := device_id c; _subscriptions := subs;
     connected := connected c; ws := ws c; outbox := outbox c;
     calls := calls c; clock := clock c |}.

Definition set_connected (b : bool) (c : client) : client :=
  {| url := url c; access_token := access_token c; email := email c;
     device_id := device_id c; _subscriptions := _subscriptions c;
     connected := b; ws := ws c; outbox := outbox c;
     calls := calls c; clock := clock c |}.

Definition set_ws (w : ws_state) (c : client) : client :=
  {| url := url c; access_token := access_token c; email := email c;
     device_id := device_id c; _subscriptions := _subscriptions c;
     connected := connected c; ws := w; outbox := outbox c;
     calls := calls c; clock := clock c |}.

Definition log_sent (s : Sent) (c : client) : client :=
  {| url := url c; access_token := access_token c; email := email c;
     device_id := device_id c; _subscriptions := _subscriptions c;
     connected := connected c; ws := ws c; outbox := outbox c ++ [s];
     calls := calls c; clock := clock c |}.

Definition log_call (k : Call) (c : client) : client :=
  {| url := url c; access_token := access_token c; email := email c;
     device_id := device_id c; _subscriptions := _subscriptions c;
     connected := connected c; ws := ws c; outbox := outbox c;
     calls := calls c ++ [k]; clock := clock c |}.

Definition tick (c : client) : client :=
  {| url := url c; access_token := access_token c; email := email c;
     device_id := device_id c; _subscriptions := _subscriptions c;
     connected := connected c; ws := ws c; outbox := outbox c;
     calls := calls c; clock := S (clock c) |}.

(** Code that runs on a client: attribute updates made before an
    exception stay. *)
Definition M (A : Type) : Type := client -> result A * client.

Definition ret {A} (a : A) : M A := fun c => (Ok a, c).
Definition raise {A} (e : pyexc) : M A := fun c => (Raise e, c).
Definition bind {A B} (m : M A) (k : A -> M B) : M B :=
  fun c =>
    match m c with
    | (Ok a, c') => k a c'
    | (Raise e, c') => (Raise e, c')
    | (Waiting, c') => (Waiting, c')
    end.
Definition read {A} (f : client -> A) : M A := fun c => (Ok (f c), c).
Definition update (f : client -> client) : M unit := fun c => (Ok tt, f c).
Definition lift {A} (r : result A) : M A := fun c => (r, c).

Notation "x <- m ;; k" := (bind m (fun x => k))
  (at level 61, m at next level, right associativity).
Notation "m ;; k" := (bind m (fun _ => k))
  (at level 61, right associativity).

(** [await self.ws.send_message(text)], logging [s] when accepted. *)
Definition send_message (s : Sent) : M unit :=
  fun c =>
    match wsh_send_message (wire s) (ws c) with
    | (Ok _, w) => (Ok tt, log_sent s (set_ws w c))
    | (Raise e, w) => (Raise e, set_ws w c)
    | (Waiting, w) => (Waiting, set_ws w c)
    end.

(** [await self._transmit(command, headers, msg)] *)
Definition _transmit (command : option string) (headers : option (dict json))
    (msg : option string) : M unit :=
  hs <- lift (str_headers (match headers with Some h => h | None => [] end)) ;;
  send_message (Frame command hs msg).

Definition sub_header (id : Z) : json := JStr ("sub-" +:+ PyStr.of_int id).

Definition subscribe (destination : string) (cb : Callback) : M unit :=
  subs <- read _subscriptions ;;
  dev <- read device_id ;;
  let id := _get_next_sub_id subs in
  let headers :=
    PyDict.set "deviceId" (JStr dev)
      (PyDict.set "destination" (JStr destination)
         (PyDict.set "id" (sub_header id) [])) in
  _transmit (Some (value SUBSCRIBE)) (Some headers) None ;;
  subs' <- read _subscriptions ;;
  update (set_subscriptions
            (PyDict.set destination {| sub_id := id; callback := cb |} subs')).

Definition unsubscribe (destination : string) : M unit :=
  subs <- read _subscriptions ;;
  let headers :=
    match PyDict.get "topic" subs with
    | Some sub => PyDict.set "id" (sub_header (sub_id sub)) []
    | None => []
    end in
  _transmit (Some (value UNSUBSCRIBE)) (Some headers) None ;;
  subs' <- read _subscriptions ;;
  match PyDict.get destination subs' with
  | Some _ => update (set_subscriptions (PyDict.remove destination subs'))
  | None => raise (KeyError destination)
  end.

(** [await self.send(destination, headers, message)] *)
Definition send (destination : string) (headers : dict json)
    (message : option string) : M unit :=
  _transmit (Some (value SEND))
    (Some (PyDict.set "destination" (JStr destination) headers)) message.

Definition send_heartbeat : M unit :=
  send_message (Text (PyStr.char PyStr.LF)).

Definition ack_message (message_id : string) (vin : json) : M unit :=
  dev <- read device_id ;;
  let headers := if truthy vin then PyDict.set "vin" vin [] else [] in
  let headers := PyDict.set "device" (JStr dev) headers in
  let headers :=
    PyDict.set "content-type" (JStr "application/json;charset=UTF-8") headers in
  let q := PyStr.char PyStr.DQUOTE in
  let msg := "{" +:+ q +:+ "a" +:+ q +:+ ": " +:+ q +:+ message_id +:+ q +:+ "}" in
  send "/app/messageRecieved" headers (Some msg).

Definition _on_connect : M unit :=
  u <- read url ;;
  dev <- read device_id ;;
  token <- read access_token ;;
  user <- read email ;;
  let headers := PyDict.set "host" (hostname u) [] in
  let headers := PyDict.set "accept-version" (JStr "1.2") headers in
  let headers := PyDict.set "heart-beat" (JStr "10000,10000") headers in
  let headers := PyDict.set "deviceId" (JStr dev) headers in
  let headers := PyDict.set "Authorization" (JStr ("Bearer " +:+ token)) headers in
  let headers := PyDict.set "userName" (JStr user) headers in
  _transmit (Some (value CONNECT)) (Some headers) None.

Definition _on_disconnect : M unit :=
  update (set_subscriptions []) ;;
  update (set_connected false).

Definition _on_error (error : pyexc) : M unit := ret tt.

(** [headers[key]] *)
Definition header (key : string) (headers : dict string) : M string :=
  match PyDict.get key headers with
  | Some v => ret v
  | None => raise (KeyError key)
  end.

(** [self._subscriptions[destination].callback] *)
Definition registered (destination : string) : M Callback :=
  subs <- read _subscriptions ;;
  match PyDict.get destination subs with
  | Some sub => ret (callback sub)
  | None => raise (KeyError destination)
  end.

(** [func(status_message)], awaited or not. The body of a coroutine
    function only runs when the call is awaited. *)
Definition invoke (func : Callback) (status_message : StatusMessage)
    (await : bool) : M unit :=
  update (log_call {| callee := func; argument := status_message;
                      awaited := await |}) ;;
  if negb (is_coroutine func) || await then
    match outcome func status_message with
    | Some e => raise e
    | None => ret tt
    end
  else ret tt.

(** The [for b in body_json] loop of [_on_message]. *)
Fixpoint dispatch_batch (command : string) (headers : dict string)
    (body_json : list json) : M unit :=
  match body_json with
  | [] => ret tt
  | b :: rest =>
      destination <- header "destination" headers ;;
      func <- registered destination ;;
      now <- read clock ;;
      status_message <- lift (_get_status_message now command headers b) ;;
      invoke func status_message false ;;
      dispatch_batch command headers rest
  end.

Definition _on_message (message : string) : M unit :=
  if String.eqb message (PyStr.char PyStr.LF) then send_heartbeat
  else
    parsed <- lift (_parse_message message) ;;
    let '(command, headers, body) := parsed in
    (if String.eqb command (value CONNECTED)
     then update (set_connected true) else ret tt) ;;
    if String.eqb command (value MESSAGE) then
      body <- lift (_filter_non_printable body) ;;
      body_json <- lift (json_loads body) ;;
      match body_json with
      | JList items => dispatch_batch command headers items
      | _ =>
          now <- read clock ;;
          status_message <-
            lift (_get_status_message now command headers body_json) ;;
          destination <- header "destination" headers ;;
          func <- registered destination ;;
          invoke func status_message (is_coroutine func) ;;
          message_id <- header "message-id" headers ;;
          ack_message message_id (vin status_message)
      end
    else ret tt.

(** The callback the transport fires for a signal. *)
Definition handle (ev : ws_event) : M unit :=
  match ev with
  | WsOpen => _on_connect
  | WsClose => _on_disconnect
  | WsError error => _on_error error
  | WsMessage message => _on_message message
  end.

(** The transport task firing callbacks: an exception of a callback is
    raised inside that task, which then stops delivering. *)
Fixpoint deliver (evs : list ws_event) : M unit :=
  match evs with
  | [] => ret tt
  | ev :: rest =>
      fun c =>
        match handle ev c with
        | (Ok _, c') => deliver rest c'
        | (Raise e, c') => (Ok tt, set_ws (wsh_callback_raised e (ws c')) c')
        | (Waiting, c') => (Waiting, c')
        end
  end.

(** [await asyncio.sleep(...)]: the transport task runs meanwhile. *)
Definition sleep : M unit :=
  fun c =>
    let (w, evs) := wsh_sleep (ws c) in
    deliver evs (tick (set_ws w c)).

(** [while not self.connected: await asyncio.sleep(0.10)] *)
Fixpoint wait_connected (fuel : nat) : M unit :=
  match fuel with
  | O => lift Waiting
  | S fuel' =>
      up <- read connected ;;
      if up then ret tt else sleep ;; wait_connected fuel'
  end.

(** [while self.ws.ws_connected: await asyncio.sleep(0.1)] *)
Fixpoint wait_closed (fuel : nat) : M unit :=
  match fuel with
  | O => lift Waiting
  | S fuel' =>
      w <- read ws ;;
      if wsh_ws_connected w then sleep ;; wait_closed fuel' else ret tt
  end.

Definition connect (fuel : nat) : M unit :=
  w <- read ws ;;
  update (set_ws (wsh_connect w)) ;;
  wait_connected fuel.

(** The [for sub in self._subscriptions.copy()] loop of [disconnect]. *)
Fixpoint unsubscribe_all (destinations : list string) : M unit :=
  match destinations with
  | [] => ret tt
  | sub :: rest => unsubscribe sub ;; unsubscribe_all rest
  end.

Definition disconnect (fuel : nat) : M unit :=
  subs <- read _subscriptions ;;
  unsubscribe_all (PyDict.keys subs) ;;
  _transmit (Some (value DISCONNECT)) None None ;;
  send_message (Text "CLOSE") ;;
  wait_closed fuel ;;
  update (set_connected false).

(** ** connection.py: the websocket entry point of [Connection] *)

(** The attributes of a [Connection] that [ws_connect] uses; [requests]
    is a ghost field counting the REST requests issued. *)
Record connection : Type := {
  conn_email : string;
  conn_access_token : string;
  conn_device_id : string;
  user_id : string;
  vehicles : list string;
  ws_message_callabck : option Callback;
  sc : option client;
  _sc_task : bool;
  requests : nat
}.

Definition with_sc (c : client) (task : bool) (n : nat) (k : connection)
  : connection :=
  {| conn_email := conn_email k; conn_access_token := conn_access_token k;
     conn_device_id := conn_device_id k; user_id := user_id k;
     vehicles := vehicles k; ws_message_callabck := ws_message_callabck k;
     sc := Some c; _sc_task := task; requests := n |}.

Definition with_request (k : connection) : connection :=
  {| conn_email := conn_email k; conn_access_token := conn_access_token k;
     conn_device_id := conn_device_id k; user_id := user_id k;
     vehicles := vehicles k; ws_message_callabck := ws_message_callabck k;
     sc := sc k; _sc_task := _sc_task k; requests := S (requests k) |}.

(** The [for vehicle in self.vehicles] loop of [ws_connect]. *)
Fixpoint subscribe_vehicles (vins : list string) (cb : Callback) : M unit :=
  match vins with
  | [] => ret tt
  | v :: rest => subscribe (WS_DESTINATION_VIN v) cb ;; subscribe_vehicles rest cb
  end.

Definition ws_connect_message : string :=
  "No message callback has been configured.  Unable to connect webservice".

Definition ws_connect (fuel : nat) (k : connection) : result unit * connection :=
  match ws_message_callabck k with
  | Some cb =>
      let k := with_request k in
      match request_websocket_url (user_id k) (conn_device_id k) with
      | Ok ws_url =>
          let c0 :=
            new_client (ws_url +:+ "/v2?" +:+ conn_device_id k)
              (conn_access_token k) (conn_email k) (conn_device_id k) in
          match connect fuel c0 with
          | (Ok _, c1) =>
              let (r, c2) :=
                (subscribe (WS_DESTINATION_DEVICE (conn_device_id k)) cb ;;
                 subscribe_vehicles (vehicles k) cb) c1 in
              (r, with_sc c2 true (requests k) k)
          | (Raise e, c1) => (Raise e, with_sc c1 (_sc_task k) (requests k) k)
          | (Waiting, c1) => (Waiting, with_sc c1 (_sc_task k) (requests k) k)
          end
      | Raise e => (Raise e, k)
      | Waiting => (Waiting, k)
      end
  | None => (Raise (JLRException ws_connect_message), k)
  end.
End Client.

(** ** Registry scripts and the server's view of the session *)

(** The identifiers held by a registry, in registry order. *)
Definition ids_of (subs : dict Subscription) : list Z :=
  map sub_id (PyDict.values subs).

Section Scripts.
Context {E : Env}.

(** One registry operation of a caller. *)
Inductive op : Type :=
| Subscribe (destination : string) (cb : Callback)
| Unsubscribe (destination : string).

Definition run_op (o : op) : M unit :=
  match o with
  | Subscribe destination cb => subscribe destination cb
  | Unsubscribe destination => unsubscribe destination
  end.

(** The identifier a completed [subscribe] recorded for its destination. *)
Definition issued (o : op) (r : result unit) (c : client) : list Z :=
  match o, r with
  | Subscribe destination _, Ok _ =>
      match PyDict.get destination (_subscriptions c) with
      | Some sub => [sub_id sub]
      | None => []
      end
  | _, _ => []
  end.

(** Run a script of operations, each to its end whether it returns or
    raises, and collect the identifiers issued, oldest first. *)
Fixpoint run_script (script : list op) (c : client) : list Z * client :=
  match script with
  | [] => ([], c)
  | o :: rest =>
      let (r, c') := run_op o c in
      let (ids, c'') := run_script rest c' in
      (issued o r c' ++ ids, c'')
  end.

Definition live_ids (c : client) : list Z := ids_of (_subscriptions c).
End Scripts.

(** The server's table of subscriptions, read off the frames it was sent
    (the server is not part of the repository; this is what the protocol
    prescribes). A SUBSCRIBE frame with an [id] and a [destination] header
    opens the subscription [id] on that destination; an UNSUBSCRIBE frame
    closes the subscription named by its [id] header and, without one,
    closes nothing. *)
Fixpoint server_subscriptions (sent : list Sent) (open : list (string * string))
  : list (string * string) :=
  match sent with
  | [] => open
  | Frame (Some cmd) headers _ :: rest =>
      if String.eqb cmd (value SUBSCRIBE) then
        match PyDict.get "id" headers, PyDict.get "destination" headers with
        | Some id, Some destination =>
            server_subscriptions rest (open ++ [(id, destination)])
        | _, _ => server_subscriptions rest open
        end
      else if String.eqb cmd (value UNSUBSCRIBE) then
        match PyDict.get "id" headers with
        | Some id => server_subscriptions rest (PyDict.remove id open)
        | None => server_subscriptions rest open
        end
      else server_subscriptions rest open
  | _ :: rest => server_subscriptions rest open
  end.

(** The number of subscriptions the server holds on a destination. *)
Definition outstanding (destination : string) (sent : list Sent) : nat :=
  List.length
    (List.filter (fun e => String.eqb (snd e) destination)
       (server_subscriptions sent [])).

(** ** The rest of the session layer and of [Connection] *)

Section Session.
Context {E : Env}.

(** The transport handing a sequence of texts to [_on_message], one after
    the other, until one of the calls raises. *)
Fixpoint feed (messages : list string) : M unit :=
  match messages with
  | [] => ret tt
  | message :: rest => bind (_on_message message) (fun _ => feed rest)
  end.

(** [Connection.ws_disconnect]. [self._sc_task.done] is the bound method of
    the task, not a call of it: it is truthy whatever the state of the
    task, so the test [not self._sc_task.done] fails. Without a task the
    attribute lookup on [None] raises. *)
Definition ws_disconnect (fuel : nat) (k : connection) : result unit * connection :=
  if _sc_task k then
    let done := true in
    if negb done then
      match sc k with
      | Some c =>
          let (r, c') := disconnect fuel c in
          (r, with_sc c' (_sc_task k) (requests k) k)
      | None => (Raise AttributeError, k)
      end
    else (Ok tt, k)
  else (Raise AttributeError, k).

End Session.

(** *** connection.py: the headers of the REST requests *)

(** [Connection._build_headers(add_headers)] on [self.head]: a copy of the
    standard set, updated with the additional headers when there are any. *)
Definition _build_headers (head : dict string)
    (add_headers : option (dict string)) : dict string :=
  match add_headers with
  | Some ((_ :: _) as add) => PyDict.update add head
  | _ => head
  end.

(** The dict [Connection._set_header(access_token)] stores in [self.head].
    [accept_json] and [content_json] stand for [HttpAccepts.JSON] and
    [HTTPContentType.JSON] of aiojlrpy/const.py. *)
Definition _set_header (accept_json content_json device_id access_token : string)
  : dict string :=
  [("Accept", accept_json);
   ("Authorization", "Bearer " +:+ access_token);
   ("X-Device-Id", device_id);
   ("x-telematicsprogramtype", "jlrpy");
   ("Content-Type", content_json)].

(** The guard of [Connection.delete] on the caller's headers:
    [if headers and headers["Accept"]: del headers["Accept"]]. It returns
    the headers that go on to [_request]. *)
Definition delete_guard (headers : option (dict string))
  : result (option (dict string)) :=
  match headers with
  | Some ((_ :: _) as hs) =>
      match PyDict.get "Accept" hs with
      | Some v =>
          if PyStr.truthy v then Ok (Some (PyDict.remove "Accept" hs))
          else Ok headers
      | None => Raise (KeyError "Accept")
      end
  | _ => Ok headers
  end.

(** The HTTP verbs [_request] is called with. *)
Inductive http_method : Type := GET | POST | DELETE.

(** What the [aiohttp] session answers: [response.ok] and the bytes read
    from it. *)
Record response : Type := { ok : bool; content : string }.

Section Rest.
Context {E : Env}.

(** [aiohttp]'s [session.get/post/delete(url, headers=..., json=...)] and
    [bytes.decode("utf-8", "ignore")], taken as parameters. *)
Variable session_request :
  http_method -> string -> dict string -> option json -> result response.
Variable decode : string -> string.

(** What [_request] makes of the answer: [None] unless the status is ok,
    an empty dict for an empty content, the decoded JSON, or the text
    itself when it is not JSON (only [JSONDecodeError] is caught). *)
Definition read_response (answer : result response) : result json :=
  match answer with
  | Ok resp =>
      if ok resp then
        if PyStr.truthy (content resp) then
          let text := decode (content resp) in
          match json_loads text with
          | Ok v => Ok v
          | Raise JSONDecodeError => Ok (JStr text)
          | Raise e => Raise e
          | Waiting => Waiting
          end
        else Ok (JDict [])
      else Ok JNull
  | Raise e => Raise e
  | Waiting => Waiting
  end.

(** [Connection._request(url, headers, data, method)] on [self.head]. *)
Definition _request (head : dict string) (url : string)
    (headers : option (dict string)) (data : option json)
    (method : http_method) : result json :=
  read_response
    (session_request method url (_build_headers head headers) data).

(** [Connection.delete(command, url, headers)]. The call
    [self.validate_token()] before the guard has no effect on the request:
    when the token has expired it builds the coroutine [self.connect()]
    and never awaits it. *)
Definition delete (head : dict string) (command url : string)
    (headers : option (dict string)) : result json :=
  match delete_guard headers with
  | Ok headers' =>
      _request head (url +:+ "/" +:+ command) headers' None DELETE
  | Raise e => Raise e
  | Waiting => Waiting
  end.

End Rest.

(** ** Concrete environments *)

(** JSON texts used below, with what [json.loads] makes of them. *)
Definition quoted (s : string) : string :=
  PyStr.char PyStr.DQUOTE +:+ s +:+ PyStr.char PyStr.DQUOTE.

Definition status_text : string :=
  "{" +:+ quoted "v" +:+ ": " +:+ quoted "VIN123" +:+ ", "
  +:+ quoted "a" +:+ ": {" +:+ quoted "k" +:+ ": 1}}".

Definition empty_alert_text : string :=
  "{" +:+ quoted "v" +:+ ": " +:+ quoted "VIN123" +:+ ", "
  +:+ quoted "a" +:+ ": {}}".

Definition numeric_vin_text : string := "{" +:+ quoted "v" +:+ ": 7}".

Definition batch_text : string :=
  "[{" +:+ quoted "v" +:+ ": " +:+ quoted "V1" +:+ "}, {"
  +:+ quoted "v" +:+ ": " +:+ quoted "V2" +:+ "}, {"
  +:+ quoted "v" +:+ ": " +:+ quoted "V3" +:+ "}]".

Definition payloads : dict json :=
  [(status_text,
    JDict [("v", JStr "VIN123"); ("a", JDict [("k", JInt 1)])]);
   (empty_alert_text, JDict [("v", JStr "VIN123"); ("a", JDict [])]);
   (numeric_vin_text, JDict [("v", JInt 7)]);
   (batch_text,
    JList [JDict [("v", JStr "V1")]; JDict [("v", JStr "V2")];
           JDict [("v", JStr "V3")]])].

(** A transport that accepts every text and is closed by the text CLOSE,
    with a decoder for the texts above. *)
Definition loopback : Env :=
  {| ws_state := bool;
     wsh_new := fun _ _ _ _ => false;
     wsh_connect := fun _ => true;
     wsh_send_message := fun text w =>
       (Ok tt, if String.eqb text "CLOSE" then false else w);
     wsh_ws_connected := fun w => w;
     wsh_sleep := fun w => (w, []);
     wsh_callback_raised := fun _ w => w;
     json_loads := fun s =>
       match PyDict.get s payloads with
       | Some v => Ok v
       | None => Raise JSONDecodeError
       end;
     hostname := fun _ => JStr "localhost";
     request_websocket_url := fun _ _ => Ok "wss://localhost";
     WS_DESTINATION_DEVICE := fun d => "/device/" +:+ d;
     WS_DESTINATION_VIN := fun v => "/vin/" +:+ v |}.

(** The same, on a transport that rejects every text. *)
Definition severed : Env :=
  {| ws_state := unit;
     wsh_new := fun _ _ _ _ => tt;
     wsh_connect := fun w => w;
     wsh_send_message := fun _ w => (Raise (TransportError "closed"), w);
     wsh_ws_connected := fun _ => false;
     wsh_sleep := fun w => (w, []);
     wsh_callback_raised := fun _ w => w;
     json_loads := fun _ => Raise JSONDecodeError;
     hostname := fun _ => JStr "localhost";
     request_websocket_url := fun _ _ => Ok "wss://localhost";
     WS_DESTINATION_DEVICE := fun d => "/device/" +:+ d;
     WS_DESTINATION_VIN := fun v => "/vin/" +:+ v |}.

(** A callback that returns normally on every message. *)
Definition quiet (name : string) (coroutine : bool) : Callback :=
  {| cb_name := name; is_coroutine := coroutine; outcome := fun _ => None |}.

(** ** Conditions on frames used in the statements below *)

(** A header key or value without colon and without line feed. *)
Definition plain (s : string) : bool :=
  PyStr.lacks PyStr.COLON s && PyStr.lacks PyStr.LF s.

Definition plain_headers (headers : dict string) : bool :=
  forallb (fun kv => plain (fst kv) && plain (snd kv)) headers.

(** The body [_parse_message] finds in a frame built from [body]: the last
    line of the frame, terminator included. *)
Definition parsed_body (body : option string) : option string :=
  match body with
  | Some b => if PyStr.truthy b then Some (b +:+ PyStr.char PyStr.NULL) else None
  | None => None
  end.

(** The frame a [subscribe] hands to the transport. *)
Definition subscribe_frame (dev : string) (id : Z) (destination : string) : Sent :=
  Frame (Some (value SUBSCRIBE))
    [("id", "sub-" +:+ PyStr.of_int id); ("destination", destination);
     ("deviceId", dev)] None.

(** The frame an [unsubscribe] hands to the transport when the registry is
    [subs]: its only header comes from the entry stored under the key
    [topic], whatever the destination. *)
Definition unsubscribe_frame (subs : dict Subscription) : Sent :=
  Frame (Some (value UNSUBSCRIBE))
    (match PyDict.get "topic" subs with
     | Some sub => [("id", "sub-" +:+ PyStr.of_int (sub_id sub))]
     | None => []
     end) None.

(** A transport that accepts every text. *)
Definition reliable {E : Env} : Prop :=
  forall text w, fst (wsh_send_message text w) = Ok tt.

(** Signals whose callbacks transmit nothing. *)
Definition silent (ev : ws_event) : bool :=
  match ev with
  | WsClose | WsError _ => true
  | WsOpen | WsMessage _ => false
  end.

(** The transport reports closed after at most [lag] sleeps, firing only
    close and error callbacks meanwhile. *)
Fixpoint closes_within {E : Env} (lag : nat) (w : ws_state) : Prop :=
  wsh_ws_connected w = false
  \/ match lag with
     | O => False
     | S lag' =>
         forallb silent (snd (wsh_sleep w)) = true
         /\ closes_within lag' (fst (wsh_sleep w))
     end.

(** [start, start + 1, ...], [len] numbers. *)
Fixpoint Zseq (start : Z) (len : nat) : list Z :=
  match len with
  | O => []
  | S len' => start :: Zseq (start + 1) len'
  end.

Definition only_subscribes {E : Env} (script : list op) : bool :=
  forallb (fun o => match o with Subscribe _ _ => true | Unsubscribe _ => false end)
    script.

(** The non-empty suffixes of a list, longest first: the registries that
    [disconnect] goes through while it unsubscribes. *)
Fixpoint suffixes {A} (l : list A) : list (list A) :=
  match l with
  | [] => []
  | x :: l' => (x :: l') :: suffixes l'
  end.

(** The acknowledgement [ack_message] hands to the transport for a
    message id and a [vin] that is [None] or a string. *)
Definition ack_frame (dev message_id : string) (vin : json) : Sent :=
  Frame (Some (value SEND))
    ((match vin with
      | JStr s => if PyStr.truthy s then [("vin", s)] else []
      | _ => []
      end)
     ++ [("device", dev);
         ("content-type", "application/json;charset=UTF-8");
         ("destination", "/app/messageRecieved")])
    (Some ("{" +:+ PyStr.char PyStr.DQUOTE +:+ "a" +:+ PyStr.char PyStr.DQUOTE
           +:+ ": " +:+ PyStr.char PyStr.DQUOTE +:+ message_id
           +:+ PyStr.char PyStr.DQUOTE +:+ "}")).

(** A JSON object, as opposed to an array or a scalar. *)
Definition is_object (v : json) : bool :=
  match v with JDict _ => true | _ => false end.

(** The text of a frame as the server writes it: command, header lines,
    blank line, body, NUL. *)
Definition inbound (command : string) (header_lines : list string)
    (body : string) : string :=
  command +:+ PyStr.char PyStr.LF
  +:+ String.concat "" (map (fun l => l +:+ PyStr.char PyStr.LF) header_lines)
  +:+ PyStr.char PyStr.LF +:+ body +:+ PyStr.char PyStr.NULL.

(** A header line without its line feed, and the last line of a frame
    built from [body]. *)
Definition raw_header (kv : string * string) : string :=
  fst kv +:+ String PyStr.COLON (snd kv).

Definition last_line (body : option string) : string :=
  match body with
  | Some b => if PyStr.truthy b then b +:+ PyStr.char PyStr.NULL
              else PyStr.char PyStr.NULL
  | None => PyStr.char PyStr.NULL
  end.

(** The header dict after the loop of [_parse_message] went through the
    lines of [hs], starting from [acc]. *)
Definition insert_all (hs acc : dict string) : dict string :=
  fold_left (fun d kv => PyDict.set (fst kv) (snd kv) d) hs acc.

(** The call that dispatching [item] makes to [func] at time [now]:
    not awaited, on the status message built from [item]. *)
Definition call_for (now : datetime) (headers : dict string) (func : Callback)
    (item : json) (k : Call) : Prop :=
  _get_status_message now (value MESSAGE) headers item = Ok (argument k)
  /\ callee k = func
  /\ awaited k = false.

(** ** Concrete sessions *)

(** Sessions on these environments, before any subscription. *)
Definition fresh_session : @client loopback :=
  @new_client loopback "wss://localhost/v2?dev" "token" "me@example.org" "dev".

Definition severed_session : @client severed :=
  @new_client severed "wss://localhost/v2?dev" "token" "me@example.org" "dev".

Definition listener : Callback := quiet "listener" false.

(** A session subscribed to one destination, and frames the server sends
    on it. *)
Definition subscribed_session : @client loopback :=
  snd (@subscribe loopback "/q" listener fresh_session).

Definition message_on_q (body : string) : string :=
  inbound "MESSAGE" ["destination:/q"; "message-id:42"] body.

Definition status_on_q (v payload : json) : StatusMessage :=
  {| command := "MESSAGE"; received := 0; message_timestamp := JNull;
     vin := v; service := JNull; topic := Some "/q"; data := payload |}.

(** A [Connection] without a message callback. *)
Definition unconfigured : @connection loopback :=
  {| conn_email := "me@example.org"; conn_access_token := "token";
     conn_device_id := "dev"; user_id := "user"; vehicles := ["VIN123"];
     ws_message_callabck := None; sc := None; _sc_task := false;
     requests := 0 |}.

(** A transport that, during the first sleep after the connection attempt,
    signals open and delivers the server's CONNECTED frame. *)
Definition handshake : Env :=
  {| ws_state := nat;
     wsh_new := fun _ _ _ _ => 0;
     wsh_connect := fun _ => 1;
     wsh_send_message := fun text w =>
       (Ok tt, if String.eqb text "CLOSE" then 0 else w);
     wsh_ws_connected := fun w => negb (Nat.eqb w 0);
     wsh_sleep := fun w =>
       match w with
       | 1 => (2, [WsOpen; WsMessage (inbound "CONNECTED" ["version:1.2"] "")])
       | _ => (w, [])
       end;
     wsh_callback_raised := fun _ w => w;
     json_loads := fun _ => Raise JSONDecodeError;
     hostname := fun _ => JStr "localhost";
     request_websocket_url := fun _ _ => Ok "wss://localhost";
     WS_DESTINATION_DEVICE := fun d => "/device/" +:+ d;
     WS_DESTINATION_VIN := fun v => "/vin/" +:+ v |}.

(** A [Connection] with a message callback and one vehicle. *)
Definition configured : @connection handshake :=
  {| conn_email := "me@example.org"; conn_access_token := "token";
     conn_device_id := "dev"; user_id := "user"; vehicles := ["VIN123"];
     ws_message_callabck := Some listener; sc := None; _sc_task := false;
     requests := 0 |}.

(** ** Conditions used in the further properties *)

(** How many times a character occurs in a text. *)
Fixpoint occurrences (c : ascii) (s : string) : nat :=
  match s with
  | EmptyString => 0
  | String x s' => (if Ascii.eqb x c then 1 else 0) + occurrences c s'
  end.

(** No NUL in the command, in the keys and values of the headers, and in
    the body: the contract [_transmit] expects of its caller. *)
Definition nul_free (command : string) (headers : dict string)
    (msg : option string) : bool :=
  PyStr.lacks PyStr.NULL command
  && forallb (fun kv => PyStr.lacks PyStr.NULL (fst kv)
                        && PyStr.lacks PyStr.NULL (snd kv)) headers
  && match msg with Some m => PyStr.lacks PyStr.NULL m | None => true end.

(** A text made of printable characters only. *)
Definition all_printable (s : string) : bool :=
  forallb PyStr.printable (list_ascii_of_string s).

(** The destination an operation is about. *)
Definition destination_of {E : Env} (o : op) : string :=
  match o with
  | Subscribe destination _ => destination
  | Unsubscribe destination => destination
  end.

(** ** Concrete inputs of the further properties *)

(** More JSON texts: a number, an empty array, and an array whose second
    element is not an object. *)
Definition mixed_batch_text : string :=
  "[{" +:+ quoted "v" +:+ ": " +:+ quoted "V1" +:+ "}, 7, {"
  +:+ quoted "v" +:+ ": " +:+ quoted "V3" +:+ "}]".

Definition more_payloads : dict json :=
  payloads
  ++ [("7", JInt 7);
      ("[]", JList []);
      (mixed_batch_text,
       JList [JDict [("v", JStr "V1")]; JInt 7; JDict [("v", JStr "V3")]])].

(** The loopback transport with a decoder for these texts as well. *)
Definition loopback_more : Env :=
  {| ws_state := bool;
     wsh_new := fun _ _ _ _ => false;
     wsh_connect := fun _ => true;
     wsh_send_message := fun text w =>
       (Ok tt, if String.eqb text "CLOSE" then false else w);
     wsh_ws_connected := fun w => w;
     wsh_sleep := fun w => (w, []);
     wsh_callback_raised := fun _ w => w;
     json_loads := fun s =>
       match PyDict.get s more_payloads with
       | Some v => Ok v
       | None => Raise JSONDecodeError
       end;
     hostname := fun _ => JStr "localhost";
     request_websocket_url := fun _ _ => Ok "wss://localhost";
     WS_DESTINATION_DEVICE := fun d => "/device/" +:+ d;
     WS_DESTINATION_VIN := fun v => "/vin/" +:+ v |}.

(** A transport that accepts every text and never reports closed. *)
Definition stuck : Env :=
  {| ws_state := unit;
     wsh_new := fun _ _ _ _ => tt;
     wsh_connect := fun w => w;
     wsh_send_message := fun _ w => (Ok tt, w);
     wsh_ws_connected := fun _ => true;
     wsh_sleep := fun w => (w, []);
     wsh_callback_raised := fun _ w => w;
     json_loads := fun _ => Raise JSONDecodeError;
     hostname := fun _ => JStr "localhost";
     request_websocket_url := fun _ _ => Ok "wss://localhost";
     WS_DESTINATION_DEVICE := fun d => "/device/" +:+ d;
     WS_DESTINATION_VIN := fun v => "/vin/" +:+ v |}.

(** A callback that raises on every message. *)
Definition faulty : Callback :=
  {| cb_name := "faulty"; is_coroutine := true;
     outcome := fun _ => Some (CallbackError "boom") |}.

Definition faulty_session : @client loopback :=
  snd (@subscribe loopback "/q" faulty fresh_session).

Definition subscribed_more : @client loopback_more :=
  snd (@subscribe loopback_more "/q" listener
         (@new_client loopback_more "wss://localhost/v2?dev" "token"
            "me@example.org" "dev")).

Definition unsubscribed_more : @client loopback_more :=
  @new_client loopback_more "wss://localhost/v2?dev" "token" "me@example.org"
    "dev".

Definition stuck_session : @client stuck :=
  snd (@subscribe stuck "/q" listener
         (@new_client stuck "wss://localhost/v2?dev" "token" "me@example.org"
            "dev")).

(** An HTTP session that answers every request with the same content. *)
Definition answering (status : bool) (text : string)
  : http_method -> string -> dict string -> option json -> result response :=
  fun _ _ _ _ => Ok {| ok := status; content := text |}.

(** The standard headers of a session and the headers of a caller. *)
Definition standard_head : dict string :=
  _set_header "application/json" "application/json" "dev" "token".

Definition caller_headers : dict string :=
  [("Accept", "text/plain"); ("X-Requested-With", "aiojlrpy")].

(** ** Header lines, callback bodies and sessions used below *)



(** Whether the body of the callback ran in a call: the body of a plain
    function runs when it is called, that of a coroutine function when the
    call is awaited. *)
Definition ran (k : Call) : bool :=
  negb (is_coroutine (callee k)) || awaited k.

(** The body of [faulty] as a plain function, and a session whose
    callback it is. *)
Definition faulty_function : Callback :=
  {| cb_name := "faulty"; is_coroutine := false; outcome := outcome faulty |}.

Definition faulty_function_session : @client loopback :=
  snd (@subscribe loopback "/q" faulty_function fresh_session).

(** A session subscribed to a destination [x] and then to one named
    [topic], and one subscribed to [A] and then [B]. *)
Definition topic_session : @client loopback :=
  snd (@run_script loopback
         [Subscribe "x" listener; Subscribe "topic" listener] fresh_session).

Definition plain_session : @client loopback :=
  snd (@run_script loopback
         [Subscribe "A" listener; Subscribe "B" listener] fresh_session).

(** * Properties *)

(** ** The frame codec *)

Section Codec.

Lemma append_nil_r (s : string) : s +:+ "" = s.
Proof. induction s as [|c s IH]; simpl; [reflexivity | now rewrite IH]. Qed.

Lemma append_assoc (a b c : string) : (a +:+ b) +:+ c = a +:+ b +:+ c.
Proof. induction a as [|x a IH]; simpl; [reflexivity | now rewrite IH]. Qed.

Lemma lacks_append sep (a b : string) :
  PyStr.lacks sep (a +:+ b) = PyStr.lacks sep a && PyStr.lacks sep b.
Proof.
  induction a as [|x a IH]; simpl; [reflexivity |].
  now rewrite IH, andb_assoc.
Qed.

Lemma split_lacks sep (a : string) :
  PyStr.lacks sep a = true -> PyStr.split sep a = [a].
Proof.
  induction a as [|x a IH]; simpl; intros H; [reflexivity |].
  apply andb_true_iff in H as [Hx Ha].
  apply negb_true_iff in Hx. rewrite Hx, (IH Ha). reflexivity.
Qed.

Lemma split_at sep (a b : string) :
  PyStr.lacks sep a = true ->
  PyStr.split sep (a +:+ String sep b) = a :: PyStr.split sep b.
Proof.
  induction a as [|x a IH]; simpl; intros H.
  - now rewrite Ascii.eqb_refl.
  - apply andb_true_iff in H as [Hx Ha].
    apply negb_true_iff in Hx. rewrite Hx, (IH Ha). reflexivity.
Qed.

Lemma concat_cons (x : string) (xs : list string) :
  String.concat "" (x :: xs) = x +:+ String.concat "" xs.
Proof. destruct xs; simpl; [now rewrite append_nil_r | reflexivity]. Qed.

Lemma concat_app (xs ys : list string) :
  String.concat "" (xs ++ ys) = String.concat "" xs +:+ String.concat "" ys.
Proof.
  induction xs as [|x xs IH].
  - reflexivity.
  - rewrite <- app_comm_cons, !concat_cons, IH, append_assoc. reflexivity.
Qed.

Lemma frame_text_shape (cmd : STOMPCommands) hs body :
  hs <> [] ->
  frame_text (Some (value cmd)) (Some hs) body
  = value cmd
    +:+ String PyStr.LF
          (String.concat "" (map header_line hs)
           +:+ String PyStr.LF (last_line body)).
Proof.
  intros Hne. unfold frame_text, frame_lines.
  assert (Hc : PyStr.truthy (value cmd) = true) by (destruct cmd; reflexivity).
  rewrite Hc. destruct hs as [|h hs]; [congruence |].
  rewrite !concat_app, concat_cons.
  replace (String.concat "" []) with "" by reflexivity.
  rewrite append_nil_r, !append_assoc.
  f_equal. cbn [PyStr.char String.append]. f_equal.
  change (String.concat "" [PyStr.char PyStr.LF]) with (PyStr.char PyStr.LF).
  cbn [PyStr.char String.append]. rewrite <- concat_app. f_equal. f_equal.
  unfold last_line.
  destruct body as [b|]; [destruct (PyStr.truthy b) |]; simpl;
    rewrite ?append_nil_r; reflexivity.
Qed.

Lemma header_line_raw kv rest :
  header_line kv +:+ rest = raw_header kv +:+ String PyStr.LF rest.
Proof.
  unfold header_line, raw_header, PyStr.char.
  rewrite !append_assoc. cbn [String.append]. reflexivity.
Qed.

Lemma plain_raw_header kv :
  plain (fst kv) && plain (snd kv) = true ->
  PyStr.lacks PyStr.LF (raw_header kv) = true
  /\ PyStr.split PyStr.COLON (raw_header kv) = [fst kv; snd kv]
  /\ String.eqb (raw_header kv) "" = false.
Proof.
  unfold plain, raw_header. intros H.
  apply andb_true_iff in H as [Hk Hv].
  apply andb_true_iff in Hk as [Hk1 Hk2].
  apply andb_true_iff in Hv as [Hv1 Hv2].
  repeat split.
  - rewrite lacks_append, Hk2. simpl. now rewrite Hv2.
  - rewrite split_at by assumption. now rewrite split_lacks.
  - destruct (fst kv); reflexivity.
Qed.

Lemma split_header_lines hs rest :
  plain_headers hs = true ->
  PyStr.split PyStr.LF (String.concat "" (map header_line hs) +:+ rest)
  = map raw_header hs ++ PyStr.split PyStr.LF rest.
Proof.
  induction hs as [|kv hs IH]; intros H.
  - reflexivity.
  - simpl in H. apply andb_true_iff in H as [Hkv Hhs].
    destruct (plain_raw_header kv Hkv) as (Hlf & _ & _).
    cbn [map]. rewrite concat_cons, append_assoc, header_line_raw.
    rewrite split_at by assumption. now rewrite IH.
Qed.

Lemma set_fresh {V} k (v : V) (d : dict V) :
  ~ In k (PyDict.keys d) -> PyDict.set k v d = d ++ [(k, v)].
Proof.
  induction d as [|[k' v'] d IH]; simpl; intros Hk; [reflexivity |].
  destruct (String.eqb_spec k k') as [->|Hne].
  - exfalso. apply Hk. now left.
  - rewrite IH; [reflexivity | tauto].
Qed.

Lemma insert_all_fresh hs : forall acc,
  PyDict.wf (acc ++ hs) -> insert_all hs acc = acc ++ hs.
Proof.
  unfold insert_all, PyDict.wf, PyDict.keys.
  induction hs as [|[k v] hs IH]; intros acc Hwf; simpl.
  - now rewrite app_nil_r.
  - rewrite set_fresh.
    + rewrite IH; rewrite <- app_assoc; [reflexivity | exact Hwf].
    + rewrite map_app in Hwf. simpl in Hwf.
      apply NoDup_remove_2 in Hwf. intros Hin. apply Hwf.
      apply in_or_app. now left.
Qed.

Lemma parse_header_lines hs rest : forall acc,
  plain_headers hs = true ->
  parse_headers (map raw_header hs ++ "" :: rest) acc
  = Ok (insert_all hs acc, rest).
Proof.
  induction hs as [|kv hs IH]; intros acc H.
  - reflexivity.
  - simpl in H. apply andb_true_iff in H as [Hkv Hhs].
    destruct (plain_raw_header kv Hkv) as (_ & Hsplit & Hne).
    cbn [map app parse_headers]. rewrite Hne, Hsplit.
    now rewrite IH.
Qed.

End Codec.

(** C1 (as amended). For every command, every non-empty header mapping
    whose keys and values hold neither a colon nor a line feed, and every
    body without a line feed, parsing the frame that [_transmit] builds
    gives back the command and the headers; the body comes back as [None]
    when it was absent or empty, and otherwise with the NUL terminator of
    the frame appended to it. *)
Theorem parse_transmitted_frame
    (cmd : STOMPCommands) (hs : dict string) (body : option string) :
  hs <> [] ->
  PyDict.wf hs ->
  plain_headers hs = true ->
  (forall b, body = Some b -> PyStr.lacks PyStr.LF b = true) ->
  _parse_message (frame_text (Some (value cmd)) (Some hs) body)
  = Ok (value cmd, hs, parsed_body body).
Proof.
  intros Hne Hwf Hplain Hbody.
  rewrite frame_text_shape by assumption.
  unfold _parse_message.
  rewrite split_at by (destruct cmd; reflexivity).
  rewrite split_header_lines by assumption.
  assert (Hlast : PyStr.split PyStr.LF (String PyStr.LF (last_line body))
                  = [""; last_line body]).
  { change (String PyStr.LF (last_line body))
      with ("" +:+ String PyStr.LF (last_line body)).
    rewrite split_at by reflexivity. f_equal. apply split_lacks.
    unfold last_line. destruct body as [b|]; [|reflexivity].
    destruct (PyStr.truthy b); [|reflexivity].
    rewrite lacks_append, (Hbody b eq_refl). reflexivity. }
  rewrite Hlast, parse_header_lines by assumption.
  rewrite (insert_all_fresh hs []) by exact Hwf.
  assert (Hstrip : PyStr.strip (value cmd) = value cmd)
    by (destruct cmd; reflexivity).
  rewrite Hstrip. cbn [app]. do 2 f_equal.
  unfold last_line, parsed_body.
  destruct body as [b|]; [|reflexivity].
  destruct b as [|c b]; [reflexivity |].
  cbn [PyStr.truthy PyStr.char String.append String.eqb].
  destruct (Ascii.eqb c PyStr.NULL); [|reflexivity].
  destruct b; reflexivity.
Qed.

(** The amended C1 on a SEND frame with two headers and a body. *)
Lemma parse_transmitted_frame_witness :
  _parse_message
    (frame_text (Some (value SEND)) (Some [("destination", "/q"); ("vin", "V1")])
       (Some "{}"))
  = Ok (value SEND, [("destination", "/q"); ("vin", "V1")],
        Some ("{}" +:+ PyStr.char PyStr.NULL)).
Proof.
  apply (parse_transmitted_frame SEND [("destination", "/q"); ("vin", "V1")]
           (Some "{}")).
  - discriminate.
  - unfold PyDict.wf. simpl. repeat constructor; simpl; intuition discriminate.
  - reflexivity.
  - intros b Hb. injection Hb as <-. reflexivity.
Defined.

(** C1 (as stated) fails: the body of a transmitted SEND frame is parsed
    with the NUL terminator attached, so the triple differs from the one
    that was serialized. *)
Lemma roundtrip_body_counterexample :
  _parse_message
    (frame_text (Some (value SEND)) (Some [("destination", "/q")]) (Some "x"))
  = Ok (value SEND, [("destination", "/q")], Some ("x" +:+ PyStr.char PyStr.NULL))
  /\ _parse_message
       (frame_text (Some (value SEND)) (Some [("destination", "/q")]) (Some "x"))
     <> Ok (value SEND, [("destination", "/q")], Some "x").
Proof. split; [reflexivity | discriminate]. Qed.

(** On an empty header mapping [_transmit] writes no blank line and the
    parse raises. *)
Lemma roundtrip_no_headers_raises :
  _parse_message (frame_text (Some (value DISCONNECT)) (Some []) None)
  = Raise ValueError.
Proof. reflexivity. Qed.

(** ** The subscription registry *)

Section Registry.
Context {E : Env}.

Lemma subscribe_run (d : string) (cb : Callback) (c : client) :
  subscribe d cb c
  = let id := _get_next_sub_id (_subscriptions c) in
    let f := subscribe_frame (device_id c) id d in
    match wsh_send_message (wire f) (ws c) with
    | (Ok _, w) =>
        (Ok tt,
         set_subscriptions
           (PyDict.set d {| sub_id := id; callback := cb |} (_subscriptions c))
           (log_sent f (set_ws w c)))
    | (Raise e, w) => (Raise e, set_ws w c)
    | (Waiting, w) => (Waiting, set_ws w c)
    end.
Proof.
  unfold subscribe, bind, read, _transmit, lift, send_message, update,
    subscribe_frame, sub_header.
  cbn.
  destruct (wsh_send_message _ (ws c)) as [[u|e|] w]; reflexivity.
Qed.

Lemma unsubscribe_run (d : string) (c : client) :
  unsubscribe d c
  = let f := unsubscribe_frame (_subscriptions c) in
    match wsh_send_message (wire f) (ws c) with
    | (Ok _, w) =>
        match PyDict.get d (_subscriptions c) with
        | Some _ =>
            (Ok tt,
             set_subscriptions (PyDict.remove d (_subscriptions c))
               (log_sent f (set_ws w c)))
        | None => (Raise (KeyError d), log_sent f (set_ws w c))
        end
    | (Raise e, w) => (Raise e, set_ws w c)
    | (Waiting, w) => (Waiting, set_ws w c)
    end.
Proof.
  unfold unsubscribe, bind, read, _transmit, lift, send_message, update,
    raise, unsubscribe_frame, sub_header.
  cbn.
  destruct (PyDict.get "topic" (_subscriptions c)) as [t|]; cbn;
    destruct (wsh_send_message _ (ws c)) as [[u|e|] w]; cbn;
    try reflexivity;
    destruct (PyDict.get d (_subscriptions c)); reflexivity.
Qed.

(** *** Facts on dicts *)

Lemma get_set_same {V} k (v : V) (d : dict V) :
  PyDict.get k (PyDict.set k v d) = Some v.
Proof.
  induction d as [|[k' v'] d IH]; simpl.
  - now rewrite String.eqb_refl.
  - destruct (String.eqb_spec k k') as [->|Hne]; simpl.
    + now rewrite String.eqb_refl.
    + destruct (String.eqb_spec k k'); [contradiction | exact IH].
Qed.

Lemma get_none_keys {V} k (d : dict V) :
  PyDict.get k d = None <-> ~ In k (PyDict.keys d).
Proof.
  induction d as [|[k' v'] d IH]; simpl.
  - tauto.
  - destruct (String.eqb_spec k k') as [->|Hne].
    + split; [discriminate | intros H; exfalso; apply H; now left].
    + rewrite IH. split; [intros H [Heq|Hin]; [congruence | tauto] | tauto].
Qed.

Lemma keys_set {V} k (v : V) (d : dict V) :
  PyDict.keys (PyDict.set k v d)
  = if PyDict.mem k d then PyDict.keys d else PyDict.keys d ++ [k].
Proof.
  unfold PyDict.mem.
  induction d as [|[k' v'] d IH]; simpl; [reflexivity |].
  destruct (String.eqb_spec k k') as [->|Hne]; simpl; [reflexivity |].
  rewrite IH. destruct (PyDict.get k d); reflexivity.
Qed.

Lemma wf_set {V} k (v : V) (d : dict V) :
  PyDict.wf d -> PyDict.wf (PyDict.set k v d).
Proof.
  unfold PyDict.wf. intros Hwf. rewrite keys_set. unfold PyDict.mem.
  destruct (PyDict.get k d) eqn:Hget; [exact Hwf |].
  apply get_none_keys in Hget.
  apply NoDup_app; [exact Hwf | repeat constructor; simpl; tauto |].
  intros x Hx [<-|[]]. contradiction.
Qed.

Lemma in_remove {V} k (x : string * V) (d : dict V) :
  In x (PyDict.remove k d) -> In x d.
Proof.
  induction d as [|[k' v'] d IH]; simpl; [tauto |].
  destruct (String.eqb k k'); simpl; tauto.
Qed.

Lemma in_keys_remove {V} k x (d : dict V) :
  In x (PyDict.keys (PyDict.remove k d)) -> In x (PyDict.keys d).
Proof.
  unfold PyDict.keys. rewrite !in_map_iff.
  intros (e & He & Hin). exists e. split; [exact He |].
  eapply in_remove; eassumption.
Qed.

Lemma wf_remove {V} k (d : dict V) :
  PyDict.wf d ->
  PyDict.wf (PyDict.remove k d) /\ ~ In k (PyDict.keys (PyDict.remove k d)).
Proof.
  unfold PyDict.wf.
  induction d as [|[k' v'] d IH]; simpl; intros Hwf.
  - split; [constructor | tauto].
  - inversion Hwf as [|? ? Hnin Hnd]; subst.
    destruct (String.eqb_spec k k') as [->|Hne]; simpl.
    + split; assumption.
    + destruct (IH Hnd) as [IH1 IH2]. split.
      * constructor; [|exact IH1].
        intros Hin. apply Hnin. eapply in_keys_remove; eassumption.
      * intros [Heq|Hin]; [congruence | tauto].
Qed.

(** *** Identifiers *)

Lemma max_sub_id_spec (others : list Subscription) : forall first,
  In (max_sub_id first others) (map sub_id (first :: others))
  /\ forall i, In i (map sub_id (first :: others)) ->
               (i <= max_sub_id first others)%Z.
Proof.
  induction others as [|s others IH]; intros first; simpl.
  - split; [now left | intros i [<-|[]]; lia].
  - destruct (Z.ltb_spec (sub_id first) (sub_id s)) as [Hlt|Hge].
    + destruct (IH s) as [Hin Hmax]. simpl in Hin, Hmax. split.
      * tauto.
      * intros i [<-|Hi]; [|now apply Hmax].
        specialize (Hmax (sub_id s) (or_introl eq_refl)). lia.
    + destruct (IH first) as [Hin Hmax]. simpl in Hin, Hmax. split.
      * tauto.
      * intros i [<-|[<-|Hi]].
        -- apply Hmax. now left.
        -- specialize (Hmax (sub_id first) (or_introl eq_refl)). lia.
        -- apply Hmax. now right.
Qed.

(** The next identifier is 1 on an empty registry and otherwise the
    largest live identifier plus one. *)
Lemma next_sub_id_spec (subs : dict Subscription) :
  let id := _get_next_sub_id subs in
  (subs = [] -> id = 1%Z)
  /\ (subs <> [] -> In (id - 1)%Z (ids_of subs))
  /\ (forall i, In i (ids_of subs) -> (i < id)%Z).
Proof.
  unfold _get_next_sub_id, ids_of.
  destruct subs as [|[k s] subs]; simpl.
  - repeat split; [congruence | tauto].
  - destruct (max_sub_id_spec (PyDict.values subs) s) as [Hin Hmax].
    simpl in Hin, Hmax. repeat split.
    + discriminate.
    + intros _. replace (max_sub_id s (PyDict.values subs) + 1 - 1)%Z
        with (max_sub_id s (PyDict.values subs)) by lia. exact Hin.
    + intros i Hi. specialize (Hmax i Hi). lia.
Qed.

Lemma next_sub_id_of_max (subs : dict Subscription) (m : Z) :
  In m (ids_of subs) ->
  (forall i, In i (ids_of subs) -> (i <= m)%Z) ->
  _get_next_sub_id subs = (m + 1)%Z.
Proof.
  intros Hin Hmax.
  destruct (next_sub_id_spec subs) as (_ & Hprev & Hlt). cbv zeta in *.
  assert (Hne : subs <> []) by (intros ->; exact Hin).
  specialize (Hprev Hne). specialize (Hmax _ Hprev). specialize (Hlt _ Hin).
  lia.
Qed.

Lemma ids_of_set k (v : Subscription) (subs : dict Subscription) i :
  In i (ids_of (PyDict.set k v subs)) -> i = sub_id v \/ In i (ids_of subs).
Proof.
  unfold ids_of, PyDict.values.
  induction subs as [|[k' v'] subs IH]; simpl.
  - intros [<-|[]]. now left.
  - destruct (String.eqb k k'); simpl.
    + intros [<-|H]; tauto.
    + intros [<-|H]; [tauto | apply IH in H; tauto].
Qed.

Lemma ids_of_set_in k (v : Subscription) (subs : dict Subscription) :
  In (sub_id v) (ids_of (PyDict.set k v subs)).
Proof.
  unfold ids_of, PyDict.values.
  induction subs as [|[k' v'] subs IH]; simpl.
  - now left.
  - destruct (String.eqb k k'); simpl; tauto.
Qed.

Lemma nodup_ids_set k (v : Subscription) (subs : dict Subscription) :
  NoDup (ids_of subs) -> ~ In (sub_id v) (ids_of subs) ->
  NoDup (ids_of (PyDict.set k v subs)).
Proof.
  unfold ids_of, PyDict.values.
  induction subs as [|[k' v'] subs IH]; simpl; intros Hnd Hfresh.
  - repeat constructor. simpl. tauto.
  - inversion Hnd as [|? ? Hnin Hnd']; subst.
    destruct (String.eqb k k'); simpl.
    + constructor; [tauto | exact Hnd'].
    + constructor; [|apply IH; tauto].
      intros Hin. apply (ids_of_set k v subs) in Hin. tauto.
Qed.

Lemma ids_of_remove k (subs : dict Subscription) i :
  In i (ids_of (PyDict.remove k subs)) -> In i (ids_of subs).
Proof.
  unfold ids_of, PyDict.values.
  induction subs as [|[k' v'] subs IH]; simpl; [tauto |].
  destruct (String.eqb k k'); simpl; tauto.
Qed.

Lemma nodup_ids_remove k (subs : dict Subscription) :
  NoDup (ids_of subs) -> NoDup (ids_of (PyDict.remove k subs)).
Proof.
  induction subs as [|[k' v'] subs IH]; intros Hnd; [constructor |].
  unfold ids_of, PyDict.values in *. simpl in *.
  inversion Hnd as [|? ? Hnin Hnd']; subst.
  destruct (String.eqb k k'); simpl; [exact Hnd' |].
  constructor; [|apply IH; exact Hnd'].
  intros Hin. apply Hnin. eapply (ids_of_remove k subs). exact Hin.
Qed.

(** *** One operation *)

Lemma run_op_ids (o : op) (c : client) :
  NoDup (ids_of (_subscriptions c)) ->
  NoDup (ids_of (_subscriptions (snd (run_op o c)))).
Proof.
  intros Hnd. destruct o as [d cb|d]; simpl.
  - rewrite subscribe_run. cbv zeta.
    destruct (wsh_send_message _ (ws c)) as [[u|e|] w]; simpl; try exact Hnd.
    apply nodup_ids_set; [exact Hnd |]. simpl. intros Hin.
    destruct (next_sub_id_spec (_subscriptions c)) as (_ & _ & Hlt).
    specialize (Hlt _ Hin). lia.
  - rewrite unsubscribe_run. cbv zeta.
    destruct (wsh_send_message _ (ws c)) as [[u|e|] w]; simpl; try exact Hnd.
    destruct (PyDict.get d (_subscriptions c)); simpl; [|exact Hnd].
    now apply nodup_ids_remove.
Qed.

Lemma run_script_ids (script : list op) : forall c,
  NoDup (ids_of (_subscriptions c)) ->
  NoDup (ids_of (_subscriptions (snd (run_script script c)))).
Proof.
  induction script as [|o script IH]; intros c Hnd; simpl; [exact Hnd |].
  pose proof (run_op_ids o c Hnd) as Hstep.
  destruct (run_op o c) as [r c1]. simpl in Hstep.
  specialize (IH c1 Hstep).
  destruct (run_script script c1) as [ids c2]. exact IH.
Qed.

Lemma next_after_subscribe d cb (subs : dict Subscription) :
  _get_next_sub_id
    (PyDict.set d {| sub_id := _get_next_sub_id subs; callback := cb |} subs)
  = (_get_next_sub_id subs + 1)%Z.
Proof.
  apply next_sub_id_of_max.
  - apply (ids_of_set_in d {| sub_id := _get_next_sub_id subs; callback := cb |}).
  - intros i Hi. apply ids_of_set in Hi as [->|Hi]; simpl; [lia |].
    destruct (next_sub_id_spec subs) as (_ & _ & Hlt).
    specialize (Hlt _ Hi). lia.
Qed.

Lemma subscribes_issue (script : list op) : forall c,
  only_subscribes script = true ->
  fst (run_script script c)
  = Zseq (_get_next_sub_id (_subscriptions c))
      (List.length (fst (run_script script c))).
Proof.
  induction script as [|o script IH]; intros c Hs; simpl; [reflexivity |].
  simpl in Hs. apply andb_true_iff in Hs as [Ho Hs].
  destruct o as [d cb|d]; [|discriminate]. simpl.
  rewrite subscribe_run. cbv zeta.
  destruct (wsh_send_message _ (ws c)) as [[u|e|] w]; simpl.
  - specialize (IH (set_subscriptions
                      (PyDict.set d {| sub_id := _get_next_sub_id (_subscriptions c);
                                       callback := cb |} (_subscriptions c))
                      (log_sent (subscribe_frame (device_id c)
                                   (_get_next_sub_id (_subscriptions c)) d)
                         (set_ws w c))) Hs).
    destruct (run_script script _) as [ids c2]. simpl in *.
    rewrite get_set_same. simpl. f_equal.
    rewrite next_after_subscribe in IH. exact IH.
  - specialize (IH (set_ws w c) Hs).
    destruct (run_script script _) as [ids c2]. exact IH.
  - specialize (IH (set_ws w c) Hs).
    destruct (run_script script _) as [ids c2]. exact IH.
Qed.

Lemma subscribes_all_issue (script : list op) : forall c,
  reliable -> only_subscribes script = true ->
  List.length (fst (run_script script c)) = List.length script.
Proof.
  intros c Hrel.
  revert c. induction script as [|o script IH]; intros c Hs; simpl; [reflexivity |].
  simpl in Hs. apply andb_true_iff in Hs as [Ho Hs].
  destruct o as [d cb|d]; [|discriminate]. simpl.
  rewrite subscribe_run. cbv zeta.
  pose proof (Hrel (wire (subscribe_frame (device_id c)
                            (_get_next_sub_id (_subscriptions c)) d)) (ws c)) as Hok.
  destruct (wsh_send_message _ (ws c)) as [r w]. simpl in Hok. subst r.
  match goal with |- context [run_script script ?c1] =>
    specialize (IH c1 Hs); destruct (run_script script c1) as [ids c2] end.
  simpl in *. rewrite get_set_same. simpl. now rewrite IH.
Qed.

(** C6 (as amended). After every interleaving of subscribe and
    unsubscribe calls on a fresh registry, whether the calls return or
    raise, the identifiers of the live entries are pairwise distinct; a
    further subscribe records the largest live identifier plus one (1 on
    an empty registry), which is above every live identifier; and a
    script of subscribes only issues exactly 1, 2, ..., N in order, N
    being its length when the transport accepts every frame. Nothing is
    said about identifiers freed by an unsubscribe: they may be issued
    again. *)
Theorem sub_id_allocation (c : client) (script : list op) :
  _subscriptions c = [] ->
  let ids := fst (run_script script c) in
  let c' := snd (run_script script c) in
  NoDup (live_ids c')
  /\ (forall d cb c2,
        subscribe d cb c' = (Ok tt, c2) ->
        exists sub,
          PyDict.get d (_subscriptions c2) = Some sub
          /\ (_subscriptions c' = [] -> sub_id sub = 1%Z)
          /\ (_subscriptions c' <> [] -> In (sub_id sub - 1)%Z (live_ids c'))
          /\ (forall i, In i (live_ids c') -> (i < sub_id sub)%Z))
  /\ (only_subscribes script = true ->
       ids = Zseq 1 (List.length ids)
       /\ (reliable -> List.length ids = List.length script)).
Proof.
  intros Hempty. cbv zeta. split; [|split].
  - apply (run_script_ids script c). rewrite Hempty. constructor.
  - intros d cb c2 Hsub. rewrite subscribe_run in Hsub. cbv zeta in Hsub.
    destruct (wsh_send_message _ _) as [[u|e|] w]; try discriminate.
    injection Hsub as <-. eexists. split.
    + simpl. apply get_set_same.
    + simpl. apply (next_sub_id_spec (_subscriptions (snd (run_script script c)))).
  - intros Hs. split.
    + rewrite (subscribes_issue script c Hs) at 1. now rewrite Hempty.
    + intros Hrel. now apply subscribes_all_issue.
Qed.


(** C10. A subscribe or an unsubscribe that raises leaves the registry
    exactly as it was before the call: the frame is handed to the
    transport before the registry is touched. *)
Theorem registry_kept_when_raising (d : string) (cb : Callback)
    (c c' : client) (e : pyexc) :
  subscribe d cb c = (Raise e, c') \/ unsubscribe d c = (Raise e, c') ->
  _subscriptions c' = _subscriptions c.
Proof.
  intros [H|H].
  - rewrite subscribe_run in H. cbv zeta in H.
    destruct (wsh_send_message _ _) as [[u|e'|] w]; try discriminate.
    injection H as _ <-. reflexivity.
  - rewrite unsubscribe_run in H. cbv zeta in H.
    destruct (wsh_send_message _ _) as [[u|e'|] w]; try discriminate.
    + destruct (PyDict.get d (_subscriptions c)); try discriminate.
      injection H as _ <-. reflexivity.
    + injection H as _ <-. reflexivity.
Qed.

(** When the transport rejects the frame, the call raises what the
    transport raised and nothing is recorded as sent. *)
Lemma rejected_frame_raises (d : string) (cb : Callback) (c : client)
    (e : pyexc) :
  (forall text, fst (wsh_send_message text (ws c)) = Raise e) ->
  (exists c', subscribe d cb c = (Raise e, c')
              /\ _subscriptions c' = _subscriptions c
              /\ outbox c' = outbox c)
  /\ (exists c', unsubscribe d c = (Raise e, c')
                 /\ _subscriptions c' = _subscriptions c
                 /\ outbox c' = outbox c).
Proof.
  intros Hrej. split.
  - rewrite subscribe_run. cbv zeta.
    match goal with |- context [wsh_send_message ?t (ws c)] =>
      pose proof (Hrej t) as H; destruct (wsh_send_message t (ws c)) as [r w] end.
    simpl in H. subst r. eexists. repeat split.
  - rewrite unsubscribe_run. cbv zeta.
    match goal with |- context [wsh_send_message ?t (ws c)] =>
      pose proof (Hrej t) as H; destruct (wsh_send_message t (ws c)) as [r w] end.
    simpl in H. subst r. eexists. repeat split.
Qed.

End Registry.

(** *** The registry theorems on concrete sessions *)

(** The amended C6 on three subscribes, the second one repeating the
    destination of the first. *)
Lemma sub_id_allocation_witness :
  fst (@run_script loopback
         [Subscribe "A" listener; Subscribe "A" listener; Subscribe "B" listener]
         fresh_session)
  = [1; 2; 3]%Z.
Proof.
  destruct (@sub_id_allocation loopback fresh_session
              [Subscribe "A" listener; Subscribe "A" listener;
               Subscribe "B" listener] eq_refl) as (_ & _ & Hseq).
  destruct (Hseq eq_refl) as [Hids _]. exact Hids.
Defined.

(** C6 (as stated) fails: subscribing A and B, unsubscribing B and
    subscribing C issues 1, 2 and 2 again, so the identifiers issued in
    the session are neither unique nor strictly increasing. *)
Lemma sub_id_reuse_counterexample :
  let ids :=
    fst (@run_script loopback
           [Subscribe "A" listener; Subscribe "B" listener; Unsubscribe "B";
            Subscribe "C" listener] fresh_session) in
  ids = [1; 2; 2]%Z /\ ~ NoDup ids /\ ~ StronglySorted Z.lt ids.
Proof.
  cbv zeta. split; [reflexivity |]. split.
  - intros H. vm_compute in H. inversion H as [|? ? _ H1]; subst.
    inversion H1 as [|? ? Hnin _]; subst. apply Hnin. now left.
  - intros H. vm_compute in H. inversion H as [|? ? H1 _]; subst.
    inversion H1 as [|? ? _ Hall]; subst.
    inversion Hall as [|? ? Hlt _]; subst. discriminate.
Qed.



(** The registry of a session whose transport is down is untouched by a
    subscribe (C10). *)
Lemma registry_kept_when_raising_witness :
  _subscriptions (snd (@subscribe severed "A" listener severed_session))
  = _subscriptions severed_session.
Proof.
  apply (@registry_kept_when_raising severed "A" listener severed_session
           (snd (@subscribe severed "A" listener severed_session))
           (TransportError "closed")).
  left. reflexivity.
Defined.

(** C4: on a registry without the destination, [unsubscribe] hands an
    UNSUBSCRIBE frame without headers to the transport and then raises
    [KeyError] from the [pop]. *)
Lemma unsubscribe_unknown_raises :
  let r := @unsubscribe loopback "/unknown" fresh_session in
  fst r = Raise (KeyError "/unknown")
  /\ outbox (snd r) = [Frame (Some (value UNSUBSCRIBE)) [] None]
  /\ _subscriptions (snd r) = _subscriptions fresh_session.
Proof. cbv zeta. repeat split. Qed.

(** The header of that frame is looked up under the literal key [topic]:
    with a destination of that name registered, unsubscribing an unknown
    destination names the subscription of [topic]. *)
Lemma unsubscribe_unknown_names_topic :
  let c := snd (@subscribe loopback "topic" listener fresh_session) in
  let r := @unsubscribe loopback "/unknown" c in
  fst r = Raise (KeyError "/unknown")
  /\ outbox (snd r)
     = outbox c ++ [Frame (Some (value UNSUBSCRIBE)) [("id", "sub-1")] None].
Proof. cbv zeta. repeat split. Qed.

(** ** Disconnecting *)

Section Lifecycle.
Context {E : Env}.

Lemma bind_ok {A B} (m : M A) (k : A -> M B) (c c' : client) (a : A) :
  m c = (Ok a, c') -> bind m k c = k a c'.
Proof. unfold bind. now intros ->. Qed.

Lemma send_message_ok (s : Sent) (c : client) :
  reliable ->
  send_message s c
  = (Ok tt, log_sent s (set_ws (snd (wsh_send_message (wire s) (ws c))) c)).
Proof.
  intros Hrel. unfold send_message.
  pose proof (Hrel (wire s) (ws c)) as Hok.
  destruct (wsh_send_message (wire s) (ws c)) as [r w].
  simpl in Hok. subst r. reflexivity.
Qed.

(** What [_transmit] hands to the transport is the text of [frame_text]. *)
Lemma transmit_ok (cmd : option string) (headers : dict json)
    (hs : dict string) (msg : option string) (c : client) :
  reliable ->
  str_headers headers = Ok hs ->
  exists c',
    _transmit cmd (Some headers) msg c = (Ok tt, c')
    /\ outbox c' = outbox c ++ [Frame cmd hs msg]
    /\ wire (Frame cmd hs msg) = frame_text cmd (Some hs) msg.
Proof.
  intros Hrel Hhs. unfold _transmit, bind, lift. rewrite Hhs.
  rewrite send_message_ok by exact Hrel. eexists. repeat split.
Qed.

Lemma unsubscribe_ok (d : string) (sub : Subscription) (c : client) :
  reliable ->
  PyDict.get d (_subscriptions c) = Some sub ->
  exists c',
    unsubscribe d c = (Ok tt, c')
    /\ outbox c' = outbox c ++ [unsubscribe_frame (_subscriptions c)]
    /\ _subscriptions c' = PyDict.remove d (_subscriptions c).
Proof.
  intros Hrel Hget. rewrite unsubscribe_run. cbv zeta.
  pose proof (Hrel (wire (unsubscribe_frame (_subscriptions c))) (ws c)) as Hok.
  destruct (wsh_send_message _ (ws c)) as [r w]. simpl in Hok. subst r.
  rewrite Hget. eexists. repeat split.
Qed.

Lemma unsubscribe_all_ok (subs : dict Subscription) : forall c,
  reliable ->
  PyDict.wf subs ->
  _subscriptions c = subs ->
  exists c',
    unsubscribe_all (PyDict.keys subs) c = (Ok tt, c')
    /\ outbox c' = outbox c ++ map unsubscribe_frame (suffixes subs)
    /\ _subscriptions c' = [].
Proof.
  induction subs as [|[k v] subs IH]; intros c Hrel Hwf Hsubs.
  - exists c. simpl. rewrite app_nil_r. repeat split. exact Hsubs.
  - assert (Hget : PyDict.get k (_subscriptions c) = Some v)
      by (rewrite Hsubs; simpl; now rewrite String.eqb_refl).
    destruct (unsubscribe_ok k v c Hrel Hget) as (c1 & Hrun & Hout & Hreg).
    rewrite Hsubs in Hreg, Hout. simpl in Hreg. rewrite String.eqb_refl in Hreg.
    unfold PyDict.wf in Hwf. simpl in Hwf.
    apply NoDup_cons_iff in Hwf as [_ Hwf'].
    destruct (IH c1 Hrel Hwf' Hreg) as (c2 & Hrun2 & Hout2 & Hreg2).
    exists c2. cbn [PyDict.keys map fst unsubscribe_all suffixes].
    rewrite (bind_ok _ _ _ _ _ Hrun). split; [exact Hrun2 |].
    split; [|exact Hreg2].
    rewrite Hout2, Hout, <- app_assoc. reflexivity.
Qed.

Lemma deliver_silent (evs : list ws_event) : forall c,
  forallb silent evs = true ->
  _subscriptions c = [] ->
  exists c',
    deliver evs c = (Ok tt, c')
    /\ outbox c' = outbox c /\ _subscriptions c' = [] /\ ws c' = ws c.
Proof.
  induction evs as [|ev evs IH]; intros c Hs Hreg.
  - exists c. repeat split. exact Hreg.
  - simpl in Hs. apply andb_true_iff in Hs as [Hev Hs].
    destruct ev as [| |error|message]; try discriminate; cbn [deliver handle].
    + destruct (IH (set_connected false (set_subscriptions [] c)) Hs eq_refl)
        as (c' & Hrun & Hout & Hreg' & Hws).
      exists c'. repeat split; assumption.
    + destruct (IH c Hs Hreg) as (c' & Hrun & Hout & Hreg' & Hws).
      exists c'. repeat split; assumption.
Qed.

Lemma sleep_silent (c : client) :
  forallb silent (snd (wsh_sleep (ws c))) = true ->
  _subscriptions c = [] ->
  exists c',
    sleep c = (Ok tt, c')
    /\ outbox c' = outbox c /\ _subscriptions c' = []
    /\ ws c' = fst (wsh_sleep (ws c)).
Proof.
  intros Hs Hreg. unfold sleep.
  destruct (wsh_sleep (ws c)) as [w evs]. simpl in Hs |- *.
  destruct (deliver_silent evs (tick (set_ws w c)) Hs Hreg)
    as (c' & Hrun & Hout & Hreg' & Hws).
  exists c'. repeat split; assumption.
Qed.

(** With enough fuel the poll of [disconnect] returns. *)
Lemma wait_closed_returns (lag : nat) : forall fuel c,
  closes_within lag (ws c) ->
  lag < fuel ->
  _subscriptions c = [] ->
  exists c',
    wait_closed fuel c = (Ok tt, c')
    /\ outbox c' = outbox c /\ _subscriptions c' = [].
Proof.
  induction lag as [|lag IH]; intros fuel c Hclose Hfuel Hreg;
    (destruct fuel as [|fuel]; [lia |]);
    cbn [wait_closed]; unfold bind at 1, read at 1;
    destruct (wsh_ws_connected (ws c)) eqn:Hup.
  - destruct Hclose as [Hdown|[]]. congruence.
  - exists c. repeat split. exact Hreg.
  - destruct Hclose as [Hdown|[Hs Hnext]]; [congruence |].
    destruct (sleep_silent c Hs Hreg) as (c1 & Hrun & Hout & Hreg1 & Hws).
    rewrite (bind_ok _ _ _ _ _ Hrun).
    rewrite <- Hws in Hnext.
    destruct (IH fuel c1 Hnext ltac:(lia) Hreg1) as (c2 & Hrun2 & Hout2 & Hreg2).
    exists c2. repeat split; [exact Hrun2 | congruence | exact Hreg2].
  - exists c. repeat split. exact Hreg.
Qed.

(** Disconnecting a session with any well-formed registry: one
    UNSUBSCRIBE per entry in registry order, then DISCONNECT, then the
    close sentinel. *)
Lemma disconnect_returns (c : client) (fuel lag : nat) :
  PyDict.wf (_subscriptions c) ->
  reliable ->
  (forall w, closes_within lag (snd (wsh_send_message "CLOSE" w))) ->
  lag < fuel ->
  exists c',
    disconnect fuel c = (Ok tt, c')
    /\ outbox c'
       = outbox c
         ++ map unsubscribe_frame (suffixes (_subscriptions c))
         ++ [Frame (Some (value DISCONNECT)) [] None; Text "CLOSE"]
    /\ _subscriptions c' = []
    /\ connected c' = false.
Proof.
  intros Hwf Hrel Hclose Hfuel.
  destruct (unsubscribe_all_ok (_subscriptions c) c Hrel Hwf eq_refl)
    as (c1 & Hrun1 & Hout1 & Hreg1).
  unfold disconnect. unfold bind at 1, read at 1.
  rewrite (bind_ok _ _ _ _ _ Hrun1).
  assert (Htx : _transmit (Some (value DISCONNECT)) None None c1
                = send_message (Frame (Some (value DISCONNECT)) [] None) c1)
    by reflexivity.
  rewrite send_message_ok in Htx by exact Hrel.
  rewrite (bind_ok _ _ _ _ _ Htx).
  match goal with |- context [bind (send_message (Text "CLOSE")) _ ?c2] =>
    pose proof (send_message_ok (Text "CLOSE") c2 Hrel) as Hsend;
    remember c2 as c2' eqn:Hc2 end.
  rewrite (bind_ok _ _ _ _ _ Hsend).
  match goal with |- context [bind (wait_closed fuel) _ ?c3] =>
    remember c3 as c3' eqn:Hc3 end.
  assert (Hclose3 : closes_within lag (ws c3'))
    by (rewrite Hc3; simpl; apply Hclose).
  assert (Hreg3 : _subscriptions c3' = [])
    by (rewrite Hc3, Hc2; simpl; exact Hreg1).
  destruct (wait_closed_returns lag fuel c3' Hclose3 Hfuel Hreg3)
    as (c4 & Hrun4 & Hout4 & Hreg4).
  rewrite (bind_ok _ _ _ _ _ Hrun4).
  eexists. split; [reflexivity |]. simpl.
  split; [|split; [exact Hreg4 | reflexivity]].
  rewrite Hout4, Hc3, Hc2. simpl. rewrite Hout1, <- !app_assoc. reflexivity.
Qed.

End Lifecycle.

(** C5. [disconnect] on a session subscribed to [x] (subscription 1) and
    then to [topic] (subscription 2), on a transport that accepts every
    text and closes on CLOSE. It returns with an empty registry after
    handing the transport two UNSUBSCRIBE frames, a DISCONNECT frame and
    the text CLOSE, in this order; but [unsubscribe] takes the [id] header
    from the entry stored under the literal key [topic], so both
    UNSUBSCRIBE frames name subscription 2: none names the subscription of
    [x], which the server still holds after the disconnect. *)
Theorem disconnect_names_topic :
  let r := @disconnect loopback 1 topic_session in
  map (fun e => (fst e, sub_id (snd e))) (_subscriptions topic_session)
  = [("x", 1%Z); ("topic", 2%Z)]
  /\ outstanding "x" (outbox topic_session) = 1
  /\ outstanding "topic" (outbox topic_session) = 1
  /\ fst r = Ok tt
  /\ outbox (snd r)
     = outbox topic_session
       ++ [Frame (Some (value UNSUBSCRIBE)) [("id", "sub-2")] None;
           Frame (Some (value UNSUBSCRIBE)) [("id", "sub-2")] None;
           Frame (Some (value DISCONNECT)) [] None;
           Text "CLOSE"]
  /\ _subscriptions (snd r) = []
  /\ outstanding "x" (outbox (snd r)) = 1
  /\ outstanding "topic" (outbox (snd r)) = 0.
Proof. cbv zeta. repeat split. Qed.

(** Without a destination named [topic] in the registry the UNSUBSCRIBE
    frames of [disconnect] carry no [id] header at all: the two frames
    are the same text, and the server still holds both subscriptions. *)
Lemma disconnect_frames_without_id :
  let r := @disconnect loopback 1 plain_session in
  fst r = Ok tt
  /\ outbox (snd r)
     = outbox plain_session
       ++ [Frame (Some (value UNSUBSCRIBE)) [] None;
           Frame (Some (value UNSUBSCRIBE)) [] None;
           Frame (Some (value DISCONNECT)) [] None;
           Text "CLOSE"]
  /\ _subscriptions (snd r) = []
  /\ outstanding "A" (outbox (snd r)) = 1
  /\ outstanding "B" (outbox (snd r)) = 1.
Proof. cbv zeta. repeat split. Qed.

(** ** The dispatcher *)

Section Dispatcher.
Context {E : Env}.

Lemma not_heartbeat (message : string) :
  message <> PyStr.char PyStr.LF ->
  String.eqb message (PyStr.char PyStr.LF) = false.
Proof. intros H. now apply String.eqb_neq. Qed.











Lemma on_message_MESSAGE (message : string) (headers : dict string)
    (body : string) (c : client) :
  message <> PyStr.char PyStr.LF ->
  _parse_message message = Ok (value MESSAGE, headers, Some body) ->
  _on_message message c
  = match json_loads (PyStr.filter PyStr.printable body) with
    | Ok (JList items) => dispatch_batch (value MESSAGE) headers items c
    | Ok body_json =>
        bind (read clock) (fun now =>
        bind (lift (_get_status_message now (value MESSAGE) headers body_json))
          (fun status_message =>
        bind (header "destination" headers) (fun destination =>
        bind (registered destination) (fun func =>
        bind (invoke func status_message (is_coroutine func)) (fun _ =>
        bind (header "message-id" headers) (fun message_id =>
        ack_message message_id (vin status_message))))))) c
    | Raise e => (Raise e, c)
    | Waiting => (Waiting, c)
    end.
Proof.
  intros Hm Hparse. unfold _on_message. rewrite not_heartbeat by assumption.
  unfold bind at 1, lift at 1. rewrite Hparse. cbn.
  unfold bind at 1, lift at 1.
  destruct (json_loads (PyStr.filter PyStr.printable body)) as [j|e|];
    [destruct j |..]; reflexivity.
Qed.

Lemma ack_message_ok (message_id : string) (v : json) (c : client) :
  reliable ->
  truthy v = false \/ (exists s, v = JStr s) ->
  exists c',
    ack_message message_id v c = (Ok tt, c')
    /\ outbox c' = outbox c ++ [ack_frame (device_id c) message_id v]
    /\ calls c' = calls c.
Proof.
  intros Hrel Hv.
  assert (Hrun : ack_message message_id v c
                 = send_message (ack_frame (device_id c) message_id v) c).
  { unfold ack_message, send, _transmit, ack_frame, bind, read, lift.
    destruct Hv as [Hf|[s ->]].
    - rewrite Hf. destruct v as [| | | |s| |]; try reflexivity.
      simpl in Hf. rewrite Hf. reflexivity.
    - simpl. destruct (PyStr.truthy s); reflexivity. }
  rewrite Hrun, send_message_ok by exact Hrel.
  eexists. repeat split.
Qed.

(** C2 (as amended). For an inbound MESSAGE frame whose body decodes to
    one JSON object, with the destination registered, a message-id
    header, a callback that returns normally, a [v] that is absent or a
    string, and a transport that accepts the acknowledgement: the
    dispatcher builds one status message whose [data] is the value under
    [a] when that value is truthy and the whole body otherwise, and whose
    [vin] is the value under [v]; it invokes the registered callback
    exactly once and then hands the transport exactly one
    acknowledgement, which carries the message id. *)
Theorem single_message_dispatch (message : string) (headers : dict string)
    (body : string) (fields : list (string * json))
    (destination message_id : string) (sub : Subscription)
    (status_message : StatusMessage) (c : client) :
  message <> PyStr.char PyStr.LF ->
  _parse_message message = Ok (value MESSAGE, headers, Some body) ->
  json_loads (PyStr.filter PyStr.printable body) = Ok (JDict fields) ->
  PyDict.get "destination" headers = Some destination ->
  PyDict.get destination (_subscriptions c) = Some sub ->
  PyDict.get "message-id" headers = Some message_id ->
  _get_status_message (clock c) (value MESSAGE) headers (JDict fields)
  = Ok status_message ->
  outcome (callback sub) status_message = None ->
  truthy (vin status_message) = false \/ (exists s, vin status_message = JStr s) ->
  reliable ->
  let value_of key :=
    match PyDict.get key fields with Some x => x | None => JNull end in
  data status_message
  = (if truthy (value_of "a") then value_of "a" else JDict fields)
  /\ vin status_message = value_of "v"
  /\ exists c',
       _on_message message c = (Ok tt, c')
       /\ calls c'
          = calls c ++ [{| callee := callback sub;
                           argument := status_message;
                           awaited := is_coroutine (callback sub) |}]
       /\ outbox c'
          = outbox c ++ [ack_frame (device_id c) message_id (vin status_message)].
Proof.
  intros Hm Hparse Hjson Hdest Hsub Hid Hsm Hcb Hvin Hrel. cbv zeta.
  split; [|split].
  - simpl in Hsm. injection Hsm as <-. reflexivity.
  - simpl in Hsm. injection Hsm as <-. reflexivity.
  - rewrite (on_message_MESSAGE message headers body c Hm Hparse), Hjson.
    unfold bind at 1, read at 1. unfold bind at 1, lift at 1. rewrite Hsm.
    unfold bind at 1, header at 1. rewrite Hdest. unfold ret at 1.
    unfold bind at 1, registered at 1, bind at 1, read at 1.
    rewrite Hsub. unfold ret at 1.
    unfold bind at 1, invoke at 1, bind at 1, update at 1.
    rewrite Hcb.
    replace (negb (is_coroutine (callback sub)) || is_coroutine (callback sub))
      with true by (destruct (is_coroutine (callback sub)); reflexivity).
    unfold ret at 1.
    unfold bind at 1, header at 1. rewrite Hid. unfold ret at 1.
    match goal with |- context [ack_message _ _ ?c1] =>
      destruct (ack_message_ok message_id (vin status_message) c1 Hrel Hvin)
        as (c' & Hrun & Hout & Hcalls) end.
    exists c'. split; [exact Hrun |]. split.
    + rewrite Hcalls. reflexivity.
    + rewrite Hout. reflexivity.
Qed.

(** A call that is not awaited returns when the callback is a coroutine
    function, whose body does not run, or a function that returns. *)
Lemma invoke_not_awaited (func : Callback) (sm : StatusMessage) (c : client) :
  is_coroutine func = true \/ outcome func sm = None ->
  invoke func sm false c
  = (Ok tt, log_call {| callee := func; argument := sm; awaited := false |} c).
Proof.
  intros H. unfold invoke, bind, update.
  destruct H as [H|H]; rewrite H; [reflexivity |].
  destruct (negb (is_coroutine func) || false); reflexivity.
Qed.

Lemma dispatch_batch_ok (headers : dict string) (destination : string)
    (sub : Subscription) (items : list json) : forall c,
  PyDict.get "destination" headers = Some destination ->
  PyDict.get destination (_subscriptions c) = Some sub ->
  forallb is_object items = true ->
  is_coroutine (callback sub) = true
  \/ (forall sm, outcome (callback sub) sm = None) ->
  exists c' new,
    dispatch_batch (value MESSAGE) headers items c = (Ok tt, c')
    /\ calls c' = calls c ++ new
    /\ Forall2 (call_for (clock c) headers (callback sub)) items new
    /\ outbox c' = outbox c.
Proof.
  induction items as [|item items IH]; intros c Hdest Hsub Hobj Hcb.
  - exists c, []. rewrite app_nil_r. repeat split. constructor.
  - simpl in Hobj. apply andb_true_iff in Hobj as [Hitem Hobj].
    destruct item as [| | | | | |fields]; try discriminate.
    cbn [dispatch_batch].
    unfold bind at 1, header at 1. rewrite Hdest. unfold ret at 1.
    unfold bind at 1, registered at 1, bind at 1, read at 1.
    rewrite Hsub. unfold ret at 1.
    unfold bind at 1, read at 1. unfold bind at 1, lift at 1.
    cbn [_get_status_message].
    unfold bind at 1. rewrite invoke_not_awaited
      by (destruct Hcb as [Hcb|Hcb]; [now left | right; apply Hcb]).
    match goal with |- context [dispatch_batch _ _ items ?c1] =>
      destruct (IH c1 Hdest Hsub Hobj Hcb) as (c' & new & Hrun & Hcalls & Hall & Hout);
      simpl in Hcalls, Hall, Hout
    end.
    eexists c', (_ :: new). split; [exact Hrun |]. split; [|split].
    + rewrite Hcalls, <- app_assoc. reflexivity.
    + constructor; [|exact Hall]. repeat split.
    + exact Hout.
Qed.

(** Among calls that are not awaited, the bodies that ran are those of a
    plain function. *)
Lemma bodies_not_awaited (now : datetime) (headers : dict string)
    (func : Callback) (items : list json) (new : list Call) :
  Forall2 (call_for now headers func) items new ->
  List.length (List.filter ran new)
  = (if is_coroutine func then 0 else List.length items).
Proof.
  induction 1 as [|item k items new (_ & Hcallee & Haw) _ IH];
    [now destruct (is_coroutine func) |].
  cbn [List.filter]. unfold ran at 1. rewrite Hcallee, Haw.
  destruct (is_coroutine func); simpl in *; [exact IH | now rewrite IH].
Qed.

(** The list branch of [_on_message] on an array of JSON objects, with
    the destination registered and a callback that is a coroutine function
    or returns normally: it returns after one call per element, in array
    order, each on the status message built from that element and none of
    them awaited, and hands nothing to the transport. The body of a plain
    function has then run once per element; that of a coroutine function
    has not run at all. *)
Lemma batched_message_dispatch (message : string) (headers : dict string)
    (body : string) (items : list json) (destination : string)
    (sub : Subscription) (c : client) :
  message <> PyStr.char PyStr.LF ->
  _parse_message message = Ok (value MESSAGE, headers, Some body) ->
  json_loads (PyStr.filter PyStr.printable body) = Ok (JList items) ->
  forallb is_object items = true ->
  PyDict.get "destination" headers = Some destination ->
  PyDict.get destination (_subscriptions c) = Some sub ->
  is_coroutine (callback sub) = true
  \/ (forall sm, outcome (callback sub) sm = None) ->
  exists c' new,
    _on_message message c = (Ok tt, c')
    /\ calls c' = calls c ++ new
    /\ List.length new = List.length items
    /\ Forall2 (call_for (clock c) headers (callback sub)) items new
    /\ List.length (List.filter ran new)
       = (if is_coroutine (callback sub) then 0 else List.length items)
    /\ outbox c' = outbox c.
Proof.
  intros Hm Hparse Hjson Hobj Hdest Hsub Hcb.
  rewrite (on_message_MESSAGE message headers body c Hm Hparse), Hjson.
  destruct (dispatch_batch_ok headers destination sub items c Hdest Hsub Hobj Hcb)
    as (c' & new & Hrun & Hcalls & Hall & Hout).
  exists c', new. repeat split; try assumption.
  - symmetry. eapply Forall2_length. exact Hall.
  - eapply bodies_not_awaited. exact Hall.
Qed.

End Dispatcher.



(** *** The dispatcher on concrete frames *)

(** The amended C2 on the status message of the specification: the
    callback is called once with the alert as [data] and one
    acknowledgement naming the message id and the vehicle is sent. *)
Lemma single_message_dispatch_witness :
  exists c',
    @_on_message loopback (message_on_q status_text) subscribed_session
    = (Ok tt, c')
    /\ calls c'
       = [{| callee := listener;
             argument := status_on_q (JStr "VIN123") (JDict [("k", JInt 1)]);
             awaited := false |}]
    /\ outbox c'
       = outbox subscribed_session ++ [ack_frame "dev" "42" (JStr "VIN123")].
Proof.
  refine (proj2 (proj2
            (@single_message_dispatch loopback (message_on_q status_text)
               [("destination", "/q"); ("message-id", "42")]
               (status_text +:+ PyStr.char PyStr.NULL)
               [("v", JStr "VIN123"); ("a", JDict [("k", JInt 1)])]
               "/q" "42" {| sub_id := 1; callback := listener |}
               (status_on_q (JStr "VIN123") (JDict [("k", JInt 1)]))
               subscribed_session _ _ _ _ _ _ _ _ _ _)));
    try reflexivity.
  - discriminate.
  - right. eexists. reflexivity.
  - intros text w. reflexivity.
Defined.

(** C2 (as stated) fails: with an empty object under [a] the key is
    present, yet the [data] handed to the callback is the whole body. *)
Lemma present_key_counterexample :
  let r := @_on_message loopback (message_on_q empty_alert_text)
             subscribed_session in
  fst r = Ok tt
  /\ map (fun k => data (argument k)) (calls (snd r))
     = [JDict [("v", JStr "VIN123"); ("a", JDict [])]]
  /\ map (fun k => data (argument k)) (calls (snd r)) <> [JDict []].
Proof. cbv zeta. split; [reflexivity |]. split; [reflexivity | discriminate]. Qed.

(** A [v] that is a number reaches the header dict of the acknowledgement
    and the concatenation in [_transmit] raises: the callback has been
    called and no acknowledgement is sent. *)
Lemma numeric_vin_raises :
  let r := @_on_message loopback (message_on_q numeric_vin_text)
             subscribed_session in
  fst r = Raise TypeError
  /\ List.length (calls (snd r)) = 1
  /\ outbox (snd r) = outbox subscribed_session.
Proof. cbv zeta. repeat split. Qed.

(** C3. A MESSAGE frame whose body is an array of three objects, on a
    destination whose callback is a coroutine function with a body that
    raises on every message. The list branch calls the callback once per
    element, in array order, and awaits none of the calls: [_on_message]
    returns normally, no body has run, and nothing is sent. The
    single-object branch awaits the same callback on the same session, and
    its exception surfaces; so does, in the list branch, the exception of
    a plain function with that body, at the first element. *)
Theorem batch_skips_coroutine_body :
  let batch := @_on_message loopback (message_on_q batch_text) faulty_session in
  let single := @_on_message loopback (message_on_q status_text) faulty_session in
  let plain :=
    @_on_message loopback (message_on_q batch_text) faulty_function_session in
  (is_coroutine faulty = true
   /\ forall m, outcome faulty m = Some (CallbackError "boom"))
  /\ (fst batch = Ok tt
      /\ map (fun k => (callee k, vin (argument k), awaited k))
           (calls (snd batch))
         = [(faulty, JStr "V1", false); (faulty, JStr "V2", false);
            (faulty, JStr "V3", false)]
      /\ List.filter ran (calls (snd batch)) = []
      /\ outbox (snd batch) = outbox faulty_session)
  /\ (fst single = Raise (CallbackError "boom")
      /\ map (fun k => (callee k, vin (argument k), awaited k))
           (calls (snd single))
         = [(faulty, JStr "VIN123", true)]
      /\ List.length (List.filter ran (calls (snd single))) = 1)
  /\ (fst plain = Raise (CallbackError "boom")
      /\ map (fun k => (callee k, vin (argument k), awaited k))
           (calls (snd plain))
         = [(faulty_function, JStr "V1", false)]
      /\ List.length (List.filter ran (calls (snd plain))) = 1).
Proof. cbv zeta. repeat split. Qed.

(** ** The websocket entry point *)

(** C9. Without a message callback [ws_connect] raises [JLRException]
    and leaves the connection as it was: no REST request has been issued,
    no STOMP client has been built and so no transport has been asked to
    connect. *)
Theorem ws_connect_unconfigured {E : Env} (fuel : nat) (k : connection) :
  ws_message_callabck k = None ->
  ws_connect fuel k = (Raise (JLRException ws_connect_message), k).
Proof. intros H. unfold ws_connect. now rewrite H. Qed.

Lemma ws_connect_unconfigured_witness :
  @ws_connect loopback 5 unconfigured
  = (Raise (JLRException ws_connect_message), unconfigured)
  /\ sc (snd (@ws_connect loopback 5 unconfigured)) = None
  /\ requests (snd (@ws_connect loopback 5 unconfigured)) = 0.
Proof.
  rewrite (@ws_connect_unconfigured loopback 5 unconfigured eq_refl).
  repeat split.
Defined.

(** With a callback configured, [ws_connect] issues the REST request,
    connects (the CONNECT frame answers the open signal, the CONNECTED
    frame ends the poll) and subscribes the device and each vehicle. *)
Example ws_connect_configured :
  let r := @ws_connect handshake 2 configured in
  fst r = Ok tt
  /\ requests (snd r) = 1
  /\ match sc (snd r) with
     | Some c =>
         connected c = true
         /\ PyDict.keys (_subscriptions c) = ["/device/dev"; "/vin/VIN123"]
         /\ map (fun s => match s with Frame cmd _ _ => cmd | Text _ => None end)
              (outbox c)
            = [Some "CONNECT"; Some "SUBSCRIBE"; Some "SUBSCRIBE"]
     | None => False
     end.
Proof. cbv zeta. repeat split. Qed.

(** One poll is not enough on that transport: the connect is still
    waiting. *)
Example ws_connect_still_waiting :
  fst (@ws_connect handshake 1 configured) = Waiting.
Proof. reflexivity. Qed.

(** A heartbeat is answered by a heartbeat, without any parsing. *)
Example heartbeat_echo :
  @_on_message loopback (PyStr.char PyStr.LF) fresh_session
  = (Ok tt, log_sent (Text (PyStr.char PyStr.LF)) fresh_session).
Proof. reflexivity. Qed.

(** * Further properties of the session layer *)

(** ** The dispatcher on frames it does not dispatch *)

Section DispatcherEdges.
Context {E : Env}.

Lemma invoke_run (func : Callback) (sm : StatusMessage) (c : client) :
  invoke func sm (is_coroutine func) c
  = (match outcome func sm with Some e => Raise e | None => Ok tt end,
     log_call {| callee := func; argument := sm;
                 awaited := is_coroutine func |} c).
Proof.
  unfold invoke, bind, update.
  replace (negb (is_coroutine func) || is_coroutine func) with true
    by (destruct (is_coroutine func); reflexivity).
  destruct (outcome func sm); reflexivity.
Qed.

(** The single-object branch up to the call of the callback. *)
Lemma single_dispatch_run (message : string) (headers : dict string)
    (body : string) (fields : list (string * json)) (destination : string)
    (sub : Subscription) (sm : StatusMessage) (c : client) :
  message <> PyStr.char PyStr.LF ->
  _parse_message message = Ok (value MESSAGE, headers, Some body) ->
  json_loads (PyStr.filter PyStr.printable body) = Ok (JDict fields) ->
  _get_status_message (clock c) (value MESSAGE) headers (JDict fields) = Ok sm ->
  PyDict.get "destination" headers = Some destination ->
  PyDict.get destination (_subscriptions c) = Some sub ->
  _on_message message c
  = bind (invoke (callback sub) sm (is_coroutine (callback sub)))
      (fun _ => bind (header "message-id" headers)
                  (fun message_id => ack_message message_id (vin sm))) c.
Proof.
  intros Hm Hparse Hjson Hsm Hdest Hsub.
  rewrite (on_message_MESSAGE message headers body c Hm Hparse), Hjson.
  unfold bind at 1, read at 1. unfold bind at 1, lift at 1. rewrite Hsm.
  unfold bind at 1, header at 1. rewrite Hdest. unfold ret at 1.
  unfold bind at 1, registered at 1, bind at 1, read at 1.
  rewrite Hsub. reflexivity.
Qed.

(** X1. Any number of heartbeats is answered by as many heartbeats, in a
    session that is otherwise left alone. *)
Theorem heartbeats_echoed (n : nat) (c : client) :
  reliable ->
  exists c',
    feed (repeat (PyStr.char PyStr.LF) n) c = (Ok tt, c')
    /\ outbox c' = outbox c ++ repeat (Text (PyStr.char PyStr.LF)) n
    /\ _subscriptions c' = _subscriptions c
    /\ connected c' = connected c
    /\ calls c' = calls c.
Proof.
  intros Hrel. revert c. induction n as [|n IH]; intros c.
  - exists c. simpl. rewrite app_nil_r. repeat split.
  - cbn [repeat feed].
    assert (Hrun : _on_message (PyStr.char PyStr.LF) c
                   = (Ok tt, log_sent (Text (PyStr.char PyStr.LF))
                               (set_ws (snd (wsh_send_message (PyStr.char PyStr.LF)
                                               (ws c))) c))).
    { unfold _on_message. rewrite String.eqb_refl. unfold send_heartbeat.
      now rewrite send_message_ok. }
    rewrite (bind_ok _ _ _ _ _ Hrun).
    match goal with |- context [feed _ ?c1] =>
      destruct (IH c1) as (c' & Hfeed & Hout & Hreg & Hconn & Hcalls) end.
    exists c'. split; [exact Hfeed |]. simpl in Hout, Hreg, Hconn, Hcalls.
    rewrite Hout, <- app_assoc. repeat split; assumption.
Qed.

(** X2. A frame whose command is not MESSAGE is never dispatched: nothing is
    sent, no callback is called, the registry stays, and the session is
    marked connected exactly when the command is CONNECTED. *)
Theorem other_commands_ignored (message command : string)
    (headers : dict string) (body : option string) (c : client) :
  message <> PyStr.char PyStr.LF ->
  _parse_message message = Ok (command, headers, body) ->
  command <> value MESSAGE ->
  exists c',
    _on_message message c = (Ok tt, c')
    /\ outbox c' = outbox c
    /\ calls c' = calls c
    /\ _subscriptions c' = _subscriptions c
    /\ connected c' = (String.eqb command (value CONNECTED) || connected c).
Proof.
  intros Hm Hparse Hcmd. unfold _on_message. rewrite not_heartbeat by assumption.
  unfold bind at 1, lift at 1. rewrite Hparse. cbn iota beta.
  apply String.eqb_neq in Hcmd. rewrite Hcmd.
  destruct (String.eqb command (value CONNECTED)); eexists;
    (split; [reflexivity |]); repeat split.
Qed.

(** X3. A MESSAGE frame for a destination without subscription, or without a
    destination header, raises [KeyError] before any callback is called and
    before anything is sent. *)
Theorem unregistered_destination (message : string) (headers : dict string)
    (body : string) (fields : list (string * json)) (c : client) :
  message <> PyStr.char PyStr.LF ->
  _parse_message message = Ok (value MESSAGE, headers, Some body) ->
  json_loads (PyStr.filter PyStr.printable body) = Ok (JDict fields) ->
  (forall d, PyDict.get "destination" headers = Some d ->
             PyDict.get d (_subscriptions c) = None) ->
  _on_message message c
  = (Raise (KeyError (match PyDict.get "destination" headers with
                      | Some d => d
                      | None => "destination"
                      end)), c).
Proof.
  intros Hm Hparse Hjson Hreg.
  rewrite (on_message_MESSAGE message headers body c Hm Hparse), Hjson.
  unfold bind at 1, read at 1. unfold bind at 1, lift at 1.
  cbn [_get_status_message].
  unfold bind at 1, header at 1.
  destruct (PyDict.get "destination" headers) as [d|] eqn:Hdest; [|reflexivity].
  unfold ret at 1. unfold bind at 1, registered at 1, bind at 1, read at 1.
  rewrite (Hreg d eq_refl). reflexivity.
Qed.

(** X4. When the frame has no message-id header the callback has already been
    called once when [KeyError] is raised, and no acknowledgement is
    sent. *)
Theorem missing_message_id (message : string) (headers : dict string)
    (body : string) (fields : list (string * json)) (destination : string)
    (sub : Subscription) (sm : StatusMessage) (c : client) :
  message <> PyStr.char PyStr.LF ->
  _parse_message message = Ok (value MESSAGE, headers, Some body) ->
  json_loads (PyStr.filter PyStr.printable body) = Ok (JDict fields) ->
  _get_status_message (clock c) (value MESSAGE) headers (JDict fields) = Ok sm ->
  PyDict.get "destination" headers = Some destination ->
  PyDict.get destination (_subscriptions c) = Some sub ->
  outcome (callback sub) sm = None ->
  PyDict.get "message-id" headers = None ->
  exists c',
    _on_message message c = (Raise (KeyError "message-id"), c')
    /\ calls c' = calls c ++ [{| callee := callback sub; argument := sm;
                                 awaited := is_coroutine (callback sub) |}]
    /\ outbox c' = outbox c.
Proof.
  intros Hm Hparse Hjson Hsm Hdest Hsub Hcb Hid.
  rewrite (single_dispatch_run message headers body fields destination sub sm c)
    by assumption.
  unfold bind at 1. rewrite invoke_run, Hcb.
  unfold bind at 1, header at 1. rewrite Hid.
  eexists. split; [reflexivity |]. repeat split.
Qed.

(** X5. An exception of the callback leaves [_on_message] as it is and the
    message is not acknowledged. *)
Theorem callback_exception_propagates (message : string)
    (headers : dict string) (body : string) (fields : list (string * json))
    (destination : string) (sub : Subscription) (sm : StatusMessage)
    (e : pyexc) (c : client) :
  message <> PyStr.char PyStr.LF ->
  _parse_message message = Ok (value MESSAGE, headers, Some body) ->
  json_loads (PyStr.filter PyStr.printable body) = Ok (JDict fields) ->
  _get_status_message (clock c) (value MESSAGE) headers (JDict fields) = Ok sm ->
  PyDict.get "destination" headers = Some destination ->
  PyDict.get destination (_subscriptions c) = Some sub ->
  outcome (callback sub) sm = Some e ->
  exists c',
    _on_message message c = (Raise e, c')
    /\ List.length (calls c') = S (List.length (calls c))
    /\ outbox c' = outbox c.
Proof.
  intros Hm Hparse Hjson Hsm Hdest Hsub Hcb.
  rewrite (single_dispatch_run message headers body fields destination sub sm c)
    by assumption.
  unfold bind at 1. rewrite invoke_run, Hcb.
  eexists. split; [reflexivity |]. split; [|reflexivity].
  simpl. rewrite length_app. simpl. lia.
Qed.

(** X6. A [v] that is truthy and not a string reaches the headers of the
    acknowledgement: the callback has been called, [_transmit] raises
    [TypeError] and no acknowledgement is sent. *)
Theorem non_string_vin (message : string) (headers : dict string)
    (body : string) (fields : list (string * json))
    (destination message_id : string) (sub : Subscription)
    (sm : StatusMessage) (c : client) :
  message <> PyStr.char PyStr.LF ->
  _parse_message message = Ok (value MESSAGE, headers, Some body) ->
  json_loads (PyStr.filter PyStr.printable body) = Ok (JDict fields) ->
  _get_status_message (clock c) (value MESSAGE) headers (JDict fields) = Ok sm ->
  PyDict.get "destination" headers = Some destination ->
  PyDict.get destination (_subscriptions c) = Some sub ->
  outcome (callback sub) sm = None ->
  PyDict.get "message-id" headers = Some message_id ->
  truthy (vin sm) = true ->
  (forall s, vin sm <> JStr s) ->
  exists c',
    _on_message message c = (Raise TypeError, c')
    /\ List.length (calls c') = S (List.length (calls c))
    /\ outbox c' = outbox c.
Proof.
  intros Hm Hparse Hjson Hsm Hdest Hsub Hcb Hid Htruthy Hnot.
  rewrite (single_dispatch_run message headers body fields destination sub sm c)
    by assumption.
  unfold bind at 1. rewrite invoke_run, Hcb.
  unfold bind at 1, header at 1. rewrite Hid. unfold ret at 1.
  unfold ack_message, send, _transmit, bind, read, lift. rewrite Htruthy.
  destruct (vin sm) as [|b|n|x|s|items|fs]; cbn.
  all: try (eexists; split; [reflexivity |]; split;
            [simpl; rewrite length_app; simpl; lia | reflexivity]).
  exfalso. now apply (Hnot s).
Qed.

(** X7. A body that decodes to a JSON value other than an object or an array
    raises [AttributeError] and leaves the session untouched. *)
Theorem scalar_body_rejected (message : string) (headers : dict string)
    (body : string) (v : json) (c : client) :
  message <> PyStr.char PyStr.LF ->
  _parse_message message = Ok (value MESSAGE, headers, Some body) ->
  json_loads (PyStr.filter PyStr.printable body) = Ok v ->
  is_object v = false ->
  (forall items, v <> JList items) ->
  _on_message message c = (Raise AttributeError, c).
Proof.
  intros Hm Hparse Hjson Hobj Hlist.
  rewrite (on_message_MESSAGE message headers body c Hm Hparse), Hjson.
  destruct v as [| | | | |items|fields]; try reflexivity.
  - exfalso. now apply (Hlist items).
  - discriminate.
Qed.

(** X8. A MESSAGE frame whose body line is the NUL alone has no body, and the
    dispatcher raises [TypeError] on it. *)
Theorem empty_body_rejected (message : string) (headers : dict string)
    (c : client) :
  message <> PyStr.char PyStr.LF ->
  _parse_message message = Ok (value MESSAGE, headers, None) ->
  _on_message message c = (Raise TypeError, c).
Proof.
  intros Hm Hparse. unfold _on_message. rewrite not_heartbeat by assumption.
  unfold bind at 1, lift at 1. rewrite Hparse. reflexivity.
Qed.

Lemma dispatch_batch_stops (headers : dict string) (destination : string)
    (sub : Subscription) (bad : json) (post pre : list json) : forall c,
  PyDict.get "destination" headers = Some destination ->
  PyDict.get destination (_subscriptions c) = Some sub ->
  forallb is_object pre = true ->
  is_object bad = false ->
  (forall sm, outcome (callback sub) sm = None) ->
  exists c' new,
    dispatch_batch (value MESSAGE) headers (pre ++ bad :: post) c
    = (Raise AttributeError, c')
    /\ calls c' = calls c ++ new
    /\ Forall2 (call_for (clock c) headers (callback sub)) pre new
    /\ outbox c' = outbox c.
Proof.
  induction pre as [|item pre IH]; intros c Hdest Hsub Hpre Hbad Hcb.
  - exists c, []. rewrite app_nil_r. cbn [app dispatch_batch].
    unfold bind at 1, header at 1. rewrite Hdest. unfold ret at 1.
    unfold bind at 1, registered at 1, bind at 1, read at 1.
    rewrite Hsub. unfold ret at 1.
    unfold bind at 1, read at 1. unfold bind at 1, lift at 1.
    destruct bad; try discriminate; repeat split; constructor.
  - simpl in Hpre. apply andb_true_iff in Hpre as [Hitem Hpre].
    destruct item as [| | | | | |fields]; try discriminate.
    cbn [app dispatch_batch].
    unfold bind at 1, header at 1. rewrite Hdest. unfold ret at 1.
    unfold bind at 1, registered at 1, bind at 1, read at 1.
    rewrite Hsub. unfold ret at 1.
    unfold bind at 1, read at 1. unfold bind at 1, lift at 1.
    cbn [_get_status_message].
    unfold bind at 1, invoke at 1, bind at 1, update at 1.
    rewrite Hcb.
    replace (if negb (is_coroutine (callback sub)) || false
             then @ret E unit tt else ret tt) with (@ret E unit tt)
      by (destruct (is_coroutine (callback sub)); reflexivity).
    unfold ret at 1.
    match goal with |- context [dispatch_batch _ _ _ ?c1] =>
      destruct (IH c1 Hdest Hsub Hpre Hbad Hcb)
        as (c' & new & Hrun & Hcalls & Hall & Hout);
      simpl in Hcalls, Hall, Hout
    end.
    eexists c', (_ :: new). split; [exact Hrun |]. split; [|split].
    + rewrite Hcalls, <- app_assoc. reflexivity.
    + constructor; [|exact Hall]. repeat split.
    + exact Hout.
Qed.

(** X9. A batch is dispatched up to its first element that is not an object:
    the callback has been called for the elements before it, in order,
    when [AttributeError] is raised, and the elements after it are
    dropped. *)
Theorem batch_stops_at_non_object (message : string) (headers : dict string)
    (body : string) (pre post : list json) (bad : json) (destination : string)
    (sub : Subscription) (c : client) :
  message <> PyStr.char PyStr.LF ->
  _parse_message message = Ok (value MESSAGE, headers, Some body) ->
  json_loads (PyStr.filter PyStr.printable body) = Ok (JList (pre ++ bad :: post)) ->
  forallb is_object pre = true ->
  is_object bad = false ->
  PyDict.get "destination" headers = Some destination ->
  PyDict.get destination (_subscriptions c) = Some sub ->
  (forall sm, outcome (callback sub) sm = None) ->
  exists c' new,
    _on_message message c = (Raise AttributeError, c')
    /\ calls c' = calls c ++ new
    /\ Forall2 (call_for (clock c) headers (callback sub)) pre new
    /\ outbox c' = outbox c.
Proof.
  intros Hm Hparse Hjson Hpre Hbad Hdest Hsub Hcb.
  rewrite (on_message_MESSAGE message headers body c Hm Hparse), Hjson.
  now apply (dispatch_batch_stops headers destination sub).
Qed.

(** X10. An empty array is accepted whatever the headers and the registry are:
    no destination is looked up, nothing is called and nothing is sent. *)
Theorem empty_batch_accepted (message : string) (headers : dict string)
    (body : string) (c : client) :
  message <> PyStr.char PyStr.LF ->
  _parse_message message = Ok (value MESSAGE, headers, Some body) ->
  json_loads (PyStr.filter PyStr.printable body) = Ok (JList []) ->
  _on_message message c = (Ok tt, c).
Proof.
  intros Hm Hparse Hjson.
  rewrite (on_message_MESSAGE message headers body c Hm Hparse), Hjson.
  reflexivity.
Qed.

End DispatcherEdges.

(** ** More on the frame codec *)

Section CodecMore.

Lemma filter_append p (a b : string) :
  PyStr.filter p (a +:+ b) = PyStr.filter p a +:+ PyStr.filter p b.
Proof.
  induction a as [|x a IH]; simpl; [reflexivity |].
  destruct (p x); simpl; now rewrite IH.
Qed.

Lemma filter_all p (s : string) :
  forallb p (list_ascii_of_string s) = true -> PyStr.filter p s = s.
Proof.
  induction s as [|x s IH]; simpl; [reflexivity |].
  intros H. apply andb_true_iff in H as [Hx Hs]. now rewrite Hx, IH.
Qed.

Lemma filter_sound p (s : string) :
  forallb p (list_ascii_of_string (PyStr.filter p s)) = true.
Proof.
  induction s as [|x s IH]; simpl; [reflexivity |].
  destruct (p x) eqn:Hx; simpl; [now rewrite Hx |]; exact IH.
Qed.

Lemma filter_length p (s : string) :
  String.length (PyStr.filter p s) <= String.length s.
Proof.
  induction s as [|x s IH]; simpl; [lia |].
  destruct (p x); simpl; lia.
Qed.

Lemma length_append (a b : string) :
  String.length (a +:+ b) = String.length a + String.length b.
Proof. induction a as [|x a IH]; simpl; [reflexivity | now rewrite IH]. Qed.

(** X11. [_filter_non_printable] keeps printable characters only, never makes a
    text longer, and changes nothing when applied a second time. *)
Theorem filter_non_printable_idempotent (s : string) :
  exists t,
    _filter_non_printable (Some s) = Ok t
    /\ all_printable t = true
    /\ String.length t <= String.length s
    /\ _filter_non_printable (Some t) = Ok t.
Proof.
  exists (PyStr.filter PyStr.printable s). repeat split.
  - apply filter_sound.
  - apply filter_length.
  - unfold _filter_non_printable. f_equal. apply filter_all, filter_sound.
Qed.

(** The lines [_parse_message] sees in a frame with headers. *)
Lemma parse_frame_lines (cmd : STOMPCommands) (hs : dict string)
    (body : option string) :
  hs <> [] ->
  plain_headers hs = true ->
  (forall b, body = Some b -> PyStr.lacks PyStr.LF b = true) ->
  _parse_message (frame_text (Some (value cmd)) (Some hs) body)
  = Ok (value cmd, insert_all hs [],
        if String.eqb (last_line body) (PyStr.char PyStr.NULL) then None
        else Some (last_line body)).
Proof.
  intros Hne Hplain Hbody.
  rewrite frame_text_shape by assumption.
  unfold _parse_message.
  rewrite split_at by (destruct cmd; reflexivity).
  rewrite split_header_lines by assumption.
  change (String PyStr.LF (last_line body))
    with ("" +:+ String PyStr.LF (last_line body)).
  rewrite split_at by reflexivity.
  rewrite split_lacks.
  - rewrite parse_header_lines by assumption.
    replace (PyStr.strip (value cmd)) with (value cmd)
      by (destruct cmd; reflexivity).
    reflexivity.
  - unfold last_line. destruct body as [b|]; [|reflexivity].
    destruct (PyStr.truthy b); [|reflexivity].
    rewrite lacks_append, (Hbody b eq_refl). reflexivity.
Qed.

(** X12. The body of a transmitted frame comes back once the dispatcher has
    filtered what the parser found: for a non-empty printable body without
    line feed, [_filter_non_printable] of the parsed body is the body that
    was handed to [_transmit]. *)
Theorem body_round_trip (cmd : STOMPCommands) (hs : dict string) (b : string) :
  hs <> [] ->
  plain_headers hs = true ->
  b <> "" ->
  PyStr.lacks PyStr.LF b = true ->
  all_printable b = true ->
  exists parsed,
    _parse_message (frame_text (Some (value cmd)) (Some hs) (Some b))
    = Ok (value cmd, insert_all hs [], Some parsed)
    /\ parsed <> b
    /\ _filter_non_printable (Some parsed) = Ok b.
Proof.
  intros Hne Hplain Hb Hlf Hprint.
  exists (b +:+ PyStr.char PyStr.NULL).
  assert (Htruthy : PyStr.truthy b = true) by (destruct b; [congruence | reflexivity]).
  split; [|split].
  - rewrite parse_frame_lines; try assumption.
    + unfold last_line. rewrite Htruthy.
      destruct b as [|x b]; [congruence |].
      cbn [PyStr.char String.append String.eqb].
      destruct (Ascii.eqb x PyStr.NULL); [|reflexivity].
      destruct b; reflexivity.
    + intros b' Hb'. injection Hb' as <-. exact Hlf.
  - intros Heq. apply (f_equal String.length) in Heq.
    rewrite length_append in Heq. simpl in Heq. lia.
  - unfold _filter_non_printable. f_equal.
    rewrite filter_append. cbn. rewrite append_nil_r.
    now apply filter_all.
Qed.

Lemma occurrences_append c (a b : string) :
  occurrences c (a +:+ b) = occurrences c a + occurrences c b.
Proof. induction a as [|x a IH]; simpl; [reflexivity | rewrite IH; lia]. Qed.

Lemma occurrences_lacks c (s : string) :
  PyStr.lacks c s = true -> occurrences c s = 0.
Proof.
  induction s as [|x s IH]; simpl; [reflexivity |].
  intros H. apply andb_true_iff in H as [Hx Hs].
  apply negb_true_iff in Hx. rewrite Hx, (IH Hs). reflexivity.
Qed.

Lemma occurrences_header_lines (hs : dict string) :
  forallb (fun kv => PyStr.lacks PyStr.NULL (fst kv)
                     && PyStr.lacks PyStr.NULL (snd kv)) hs = true ->
  occurrences PyStr.NULL (String.concat "" (map header_line hs)) = 0.
Proof.
  induction hs as [|kv hs IH]; intros H; [reflexivity |].
  simpl in H. apply andb_true_iff in H as [Hkv Hhs].
  apply andb_true_iff in Hkv as [Hk Hv].
  cbn [map]. rewrite concat_cons, occurrences_append, (IH Hhs).
  unfold header_line. rewrite !occurrences_append.
  rewrite (occurrences_lacks _ _ Hk), (occurrences_lacks _ _ Hv). reflexivity.
Qed.

(** X13. A frame built from NUL-free parts holds exactly one NUL, its last
    character: the terminator delimits the frame. *)
Theorem frame_has_one_terminator (command : string) (headers : dict string)
    (msg : option string) :
  nul_free command headers msg = true ->
  occurrences PyStr.NULL (frame_text (Some command) (Some headers) msg) = 1
  /\ exists s,
       frame_text (Some command) (Some headers) msg
       = s +:+ PyStr.char PyStr.NULL.
Proof.
  unfold nul_free. intros H.
  apply andb_true_iff in H as [H Hmsg]. apply andb_true_iff in H as [Hcmd Hhs].
  unfold frame_text, frame_lines. rewrite !concat_app. split.
  - rewrite !occurrences_append.
    assert (H1 : occurrences PyStr.NULL
                   (String.concat ""
                      (if PyStr.truthy command
                       then [command +:+ PyStr.char PyStr.LF] else [])) = 0).
    { destruct (PyStr.truthy command); [|reflexivity].
      cbn [String.concat]. rewrite occurrences_append.
      now rewrite (occurrences_lacks _ _ Hcmd). }
    assert (H2 : occurrences PyStr.NULL
                   (String.concat ""
                      (match headers with
                       | [] => []
                       | _ :: _ => map header_line headers ++ [PyStr.char PyStr.LF]
                       end)) = 0).
    { destruct headers as [|h hs]; [reflexivity |].
      rewrite concat_app, occurrences_append.
      now rewrite (occurrences_header_lines _ Hhs). }
    assert (H3 : occurrences PyStr.NULL
                   (String.concat ""
                      (match msg with
                       | Some m => if PyStr.truthy m then [m] else []
                       | None => []
                       end)) = 0).
    { destruct msg as [m|]; [|reflexivity].
      destruct (PyStr.truthy m); [|reflexivity].
      cbn [String.concat]. now apply occurrences_lacks. }
    rewrite H1, H2, H3. reflexivity.
  - eexists. rewrite <- !append_assoc. reflexivity.
Qed.

(** X14. A frame sent without headers (as DISCONNECT and most UNSUBSCRIBE
    frames are) has no blank line, and the parser of this client raises
    on it whatever the command and the body. *)
Theorem headerless_frame_unparsable (cmd : STOMPCommands) (body : option string) :
  (forall b, body = Some b -> PyStr.lacks PyStr.LF b = true) ->
  _parse_message (frame_text (Some (value cmd)) (Some []) body) = Raise ValueError
  \/ _parse_message (frame_text (Some (value cmd)) (Some []) body) = Raise IndexError.
Proof.
  intros Hbody.
  assert (Hshape : frame_text (Some (value cmd)) (Some []) body
                   = value cmd +:+ String PyStr.LF (last_line body)).
  { unfold frame_text, frame_lines.
    replace (PyStr.truthy (value cmd)) with true by (destruct cmd; reflexivity).
    rewrite !concat_app. cbn [String.concat].
    rewrite append_assoc. f_equal. cbn [PyStr.char String.append]. f_equal.
    unfold last_line.
    destruct body as [b|]; [destruct (PyStr.truthy b) |]; cbn;
      rewrite ?append_nil_r; reflexivity. }
  rewrite Hshape. unfold _parse_message.
  rewrite split_at by (destruct cmd; reflexivity).
  rewrite split_lacks.
  - cbn [parse_headers].
    assert (Hne : String.eqb (last_line body) "" = false).
    { unfold last_line. destruct body as [b|]; [|reflexivity].
      destruct (PyStr.truthy b); [|reflexivity]. destruct b; reflexivity. }
    rewrite Hne.
    destruct (PyStr.split PyStr.COLON (last_line body)) as [|x [|y [|z l]]];
      auto.
  - unfold last_line. destruct body as [b|]; [|reflexivity].
    destruct (PyStr.truthy b); [|reflexivity].
    rewrite lacks_append, (Hbody b eq_refl). reflexivity.
Qed.

Lemma get_set {V} k k' (v : V) (d : dict V) :
  PyDict.get k (PyDict.set k' v d)
  = if String.eqb k k' then Some v else PyDict.get k d.
Proof.
  induction d as [|[k2 v2] d IH]; simpl.
  - destruct (String.eqb k k'); reflexivity.
  - destruct (String.eqb_spec k' k2) as [->|Hne]; simpl.
    + destruct (String.eqb k k2); reflexivity.
    + rewrite IH. destruct (String.eqb_spec k k2) as [->|Hne2].
      * destruct (String.eqb_spec k2 k'); [congruence | reflexivity].
      * reflexivity.
Qed.

Lemma get_app {V} k (a b : dict V) :
  PyDict.get k (a ++ b)
  = match PyDict.get k a with Some v => Some v | None => PyDict.get k b end.
Proof.
  induction a as [|[k2 v2] a IH]; simpl; [reflexivity |].
  destruct (String.eqb k k2); [reflexivity | exact IH].
Qed.

(** Looking a key up after a run of assignments: the last assignment to
    the key wins, and an untouched key keeps its value. *)
Lemma get_insert_all k (hs : list (string * string)) : forall acc,
  PyDict.get k (insert_all hs acc)
  = match PyDict.get k (rev hs) with
    | Some v => Some v
    | None => PyDict.get k acc
    end.
Proof.
  unfold insert_all.
  induction hs as [|[k' v] hs IH]; intros acc; simpl; [reflexivity |].
  rewrite IH, get_app, get_set. simpl.
  destruct (PyDict.get k (rev hs)); [reflexivity |].
  destruct (String.eqb k k'); reflexivity.
Qed.

Lemma split_lines (ls : list string) (rest : string) :
  forallb (PyStr.lacks PyStr.LF) ls = true ->
  PyStr.split PyStr.LF
    (String.concat "" (map (fun l => l +:+ PyStr.char PyStr.LF) ls) +:+ rest)
  = ls ++ PyStr.split PyStr.LF rest.
Proof.
  induction ls as [|l ls IH]; intros H; [reflexivity |].
  simpl in H. apply andb_true_iff in H as [Hl Hls].
  cbn [map]. rewrite concat_cons, !append_assoc.
  cbn [PyStr.char String.append].
  rewrite split_at by assumption. now rewrite IH.
Qed.

Lemma plain_raw_lines (hs : list (string * string)) :
  plain_headers hs = true ->
  forallb (PyStr.lacks PyStr.LF) (map raw_header hs) = true.
Proof.
  induction hs as [|kv hs IH]; intros H; [reflexivity |].
  simpl in H. apply andb_true_iff in H as [Hkv Hhs].
  destruct (plain_raw_header kv Hkv) as (Hlf & _ & _).
  simpl. now rewrite Hlf, IH.
Qed.

(** X15. In a frame from the server that repeats a header, the parser keeps
    the last value of the header: every key of the parsed headers maps to
    the value of its last line. *)
Theorem repeated_header_last_wins (command body : string)
    (hs : list (string * string)) :
  PyStr.lacks PyStr.LF command = true ->
  plain_headers hs = true ->
  PyStr.lacks PyStr.LF body = true ->
  exists headers,
    _parse_message (inbound command (map raw_header hs) body)
    = Ok (PyStr.strip command, headers,
          if PyStr.truthy body then Some (body +:+ PyStr.char PyStr.NULL)
          else None)
    /\ forall k, PyDict.get k headers = PyDict.get k (rev hs).
Proof.
  intros Hcmd Hplain Hbody. exists (insert_all hs []). split.
  - unfold inbound, _parse_message.
    cbn [PyStr.char String.append].
    rewrite split_at by assumption.
    rewrite split_lines by now apply plain_raw_lines.
    change (String PyStr.LF (body +:+ PyStr.char PyStr.NULL))
      with ("" +:+ String PyStr.LF (body +:+ PyStr.char PyStr.NULL)).
    rewrite split_at by reflexivity.
    rewrite split_lacks by (rewrite lacks_append, Hbody; reflexivity).
    rewrite parse_header_lines by assumption.
    do 2 f_equal.
    destruct body as [|x body]; [reflexivity |].
    cbn [PyStr.truthy String.append String.eqb PyStr.char].
    destruct (Ascii.eqb x PyStr.NULL); [|reflexivity].
    destruct body; reflexivity.
  - intros k. rewrite get_insert_all. simpl.
    destruct (PyDict.get k (rev hs)); reflexivity.
Qed.

End CodecMore.

(** ** More on transmitting *)

Section TransmitMore.
Context {E : Env}.

Lemma str_headers_non_string (headers : dict json) (k : string) (v : json) :
  In (k, v) headers ->
  (forall s, v <> JStr s) ->
  str_headers headers = Raise TypeError.
Proof.
  induction headers as [|[k' v'] headers IH]; simpl; [tauto |].
  intros [Heq|Hin] Hv.
  - injection Heq as -> ->. destruct v; try reflexivity.
    exfalso. now apply (Hv s).
  - destruct v'; try reflexivity. now rewrite (IH Hin Hv).
Qed.

Lemma str_headers_set (headers : dict json) (hs : dict string) k v :
  str_headers headers = Ok hs ->
  str_headers (PyDict.set k (JStr v) headers) = Ok (PyDict.set k v hs).
Proof.
  revert hs. induction headers as [|[k' v'] headers IH]; intros hs H; simpl in *.
  - injection H as <-. reflexivity.
  - destruct v'; try discriminate.
    destruct (str_headers headers) as [hs'| |] eqn:Hrest; try discriminate.
    injection H as <-. simpl.
    destruct (String.eqb k k'); simpl.
    + now rewrite Hrest.
    + now rewrite (IH hs' eq_refl).
Qed.

(** X16. A header value that is not a string makes [_transmit] raise
    [TypeError] while it builds the frame: nothing is handed to the
    transport and the session is left as it was. *)
Theorem transmit_rejects_non_string (command : option string)
    (headers : dict json) (msg : option string) (k : string) (v : json)
    (c : client) :
  In (k, v) headers ->
  (forall s, v <> JStr s) ->
  _transmit command (Some headers) msg c = (Raise TypeError, c).
Proof.
  intros Hin Hv. unfold _transmit, bind, lift.
  now rewrite (str_headers_non_string headers k v Hin Hv).
Qed.

(** X17. [send] puts its destination into the headers it is given: the frame
    that goes out is a SEND frame whose destination header is the
    argument, whatever the headers said before, and whose other headers
    are the given ones. *)
Theorem send_sets_destination (destination : string) (headers : dict json)
    (hs : dict string) (message : option string) (c : client) :
  reliable ->
  str_headers headers = Ok hs ->
  exists c' sent,
    send destination headers message c = (Ok tt, c')
    /\ outbox c' = outbox c ++ [Frame (Some (value SEND)) sent message]
    /\ PyDict.get "destination" sent = Some destination
    /\ (forall k, k <> "destination" -> PyDict.get k sent = PyDict.get k hs).
Proof.
  intros Hrel Hhs. unfold send.
  destruct (transmit_ok (Some (value SEND))
              (PyDict.set "destination" (JStr destination) headers)
              (PyDict.set "destination" destination hs) message c Hrel
              (str_headers_set headers hs "destination" destination Hhs))
    as (c' & Hrun & Hout & _).
  exists c', (PyDict.set "destination" destination hs).
  split; [exact Hrun |]. split; [exact Hout |]. split.
  - apply get_set_same.
  - intros k Hk. rewrite get_set.
    apply String.eqb_neq in Hk. now rewrite Hk.
Qed.

End TransmitMore.

(** ** More on the registry *)

Section RegistryMore.
Context {E : Env}.

Lemma get_remove_other {V} k k' (d : dict V) :
  k <> k' -> PyDict.get k (PyDict.remove k' d) = PyDict.get k d.
Proof.
  intros Hne. induction d as [|[k2 v2] d IH]; simpl; [reflexivity |].
  destruct (String.eqb_spec k' k2) as [->|Hne2]; simpl.
  - apply String.eqb_neq in Hne. now rewrite Hne.
  - now rewrite IH.
Qed.

Lemma remove_set_fresh {V} k (v : V) (d : dict V) :
  PyDict.get k d = None -> PyDict.remove k (PyDict.set k v d) = d.
Proof.
  induction d as [|[k2 v2] d IH]; simpl; intros Hget.
  - now rewrite String.eqb_refl.
  - destruct (String.eqb k k2) eqn:Hk; [discriminate |]. simpl.
    rewrite Hk. now rewrite IH.
Qed.

(** X18. A subscribe or an unsubscribe only touches the registry entry of its
    own destination, whether it returns or raises: every other
    destination keeps its identifier and its callback. *)
Theorem other_destinations_untouched (o : op) (c : client) (d : string) :
  d <> destination_of o ->
  PyDict.get d (_subscriptions (snd (run_op o c)))
  = PyDict.get d (_subscriptions c).
Proof.
  intros Hne. destruct o as [d' cb|d']; simpl in Hne |- *.
  - rewrite subscribe_run. cbv zeta.
    destruct (wsh_send_message _ (ws c)) as [[u|e|] w]; simpl; try reflexivity.
    rewrite get_set. apply String.eqb_neq in Hne. now rewrite Hne.
  - rewrite unsubscribe_run. cbv zeta.
    destruct (wsh_send_message _ (ws c)) as [[u|e|] w]; simpl; try reflexivity.
    destruct (PyDict.get d' (_subscriptions c)); simpl; [|reflexivity].
    now apply get_remove_other.
Qed.

(** X19. Subscribing a destination that is not registered and unsubscribing
    it again gives back the registry as it was, order included; a
    SUBSCRIBE and an UNSUBSCRIBE frame have gone out. *)
Theorem subscribe_then_unsubscribe (d : string) (cb : Callback) (c : client) :
  reliable ->
  PyDict.get d (_subscriptions c) = None ->
  let id := _get_next_sub_id (_subscriptions c) in
  let sub := {| sub_id := id; callback := cb |} in
  exists c',
    bind (subscribe d cb) (fun _ => unsubscribe d) c = (Ok tt, c')
    /\ _subscriptions c' = _subscriptions c
    /\ outbox c'
       = outbox c
         ++ [subscribe_frame (device_id c) id d;
             unsubscribe_frame (PyDict.set d sub (_subscriptions c))].
Proof.
  intros Hrel Hget. cbv zeta.
  assert (Hsub : exists w,
            subscribe d cb c
            = (Ok tt,
               set_subscriptions
                 (PyDict.set d {| sub_id := _get_next_sub_id (_subscriptions c);
                                  callback := cb |} (_subscriptions c))
                 (log_sent (subscribe_frame (device_id c)
                              (_get_next_sub_id (_subscriptions c)) d)
                    (set_ws w c)))).
  { rewrite subscribe_run. cbv zeta.
    pose proof (Hrel (wire (subscribe_frame (device_id c)
                              (_get_next_sub_id (_subscriptions c)) d)) (ws c)) as Hok.
    destruct (wsh_send_message _ (ws c)) as [r w]. simpl in Hok. subst r.
    eexists. reflexivity. }
  destruct Hsub as (w & Hsub). rewrite (bind_ok _ _ _ _ _ Hsub).
  match goal with |- context [unsubscribe d ?c1] =>
    destruct (unsubscribe_ok d {| sub_id := _get_next_sub_id (_subscriptions c);
                                  callback := cb |} c1 Hrel)
      as (c' & Hrun & Hout & Hreg); [simpl; apply get_set_same |]
  end.
  simpl in Hout, Hreg. rewrite remove_set_fresh in Hreg by exact Hget.
  exists c'. split; [exact Hrun |]. split; [exact Hreg |].
  rewrite Hout, <- app_assoc. reflexivity.
Qed.

(** X20. After the close signal of the transport the registry is empty and the
    session is marked disconnected, nothing having been sent; the next
    subscribe starts again at identifier 1. *)
Theorem close_signal_resets (c : client) :
  exists c1,
    handle WsClose c = (Ok tt, c1)
    /\ _subscriptions c1 = []
    /\ connected c1 = false
    /\ outbox c1 = outbox c
    /\ forall d cb c2,
         subscribe d cb c1 = (Ok tt, c2) ->
         _subscriptions c2 = [(d, {| sub_id := 1; callback := cb |})].
Proof.
  eexists. split; [reflexivity |]. repeat split.
  intros d cb c2 Hsub. rewrite subscribe_run in Hsub. cbv zeta in Hsub.
  destruct (wsh_send_message _ _) as [[u|e|] w]; try discriminate.
  injection Hsub as <-. reflexivity.
Qed.

End RegistryMore.

(** ** More on connecting and disconnecting *)

Section LifecycleMore.
Context {E : Env}.

(** X21. [disconnect] on a registry of any size: one UNSUBSCRIBE frame per
    entry, in registry order, then DISCONNECT, then the close sentinel;
    the registry ends empty and the session disconnected. *)
Theorem disconnect_unsubscribes_all (c : client) (fuel lag : nat) :
  PyDict.wf (_subscriptions c) ->
  reliable ->
  (forall w, closes_within lag (snd (wsh_send_message "CLOSE" w))) ->
  lag < fuel ->
  exists c',
    disconnect fuel c = (Ok tt, c')
    /\ outbox c'
       = outbox c
         ++ map unsubscribe_frame (suffixes (_subscriptions c))
         ++ [Frame (Some (value DISCONNECT)) [] None; Text "CLOSE"]
    /\ List.length (outbox c')
       = List.length (outbox c) + List.length (_subscriptions c) + 2
    /\ _subscriptions c' = []
    /\ connected c' = false.
Proof.
  intros Hwf Hrel Hclose Hfuel.
  destruct (disconnect_returns c fuel lag Hwf Hrel Hclose Hfuel)
    as (c' & Hrun & Hout & Hreg & Hconn).
  assert (Hlen : forall A (l : list A), List.length (suffixes l) = List.length l)
    by (induction l; simpl; congruence).
  exists c'. split; [exact Hrun |]. split; [exact Hout |].
  split; [|split; assumption].
  rewrite Hout, !length_app, length_map. unfold PyDict.dict in *.
  rewrite Hlen. simpl. lia.
Qed.

Lemma deliver_never_raises (evs : list ws_event) : forall c e,
  fst (deliver evs c) <> Raise e.
Proof.
  induction evs as [|ev evs IH]; intros c e; simpl; [discriminate |].
  destruct (handle ev c) as [[u|e'|] c1]; simpl; [apply IH | discriminate..].
Qed.

Lemma wait_closed_blocks (fuel : nat) : forall c,
  (forall w, wsh_ws_connected w = true) ->
  fst (wait_closed fuel c) = Waiting.
Proof.
  induction fuel as [|fuel IH]; intros c Hup; [reflexivity |].
  cbn [wait_closed]. unfold bind at 1, read at 1. rewrite Hup.
  unfold bind. unfold sleep.
  destruct (wsh_sleep (ws c)) as [w evs].
  pose proof (deliver_never_raises evs (tick (set_ws w c))) as Hnr.
  destruct (deliver evs (tick (set_ws w c))) as [[u|e|] c1]; simpl in *.
  - now apply IH.
  - exfalso. now apply (Hnr e).
  - reflexivity.
Qed.

(** X22. There is no timeout in [disconnect]: on a transport that never
    reports closed it never returns, however many polls it is given,
    although the registry was well formed and every frame was accepted. *)
Theorem disconnect_blocks (c : client) (fuel : nat) :
  PyDict.wf (_subscriptions c) ->
  reliable ->
  (forall w, wsh_ws_connected w = true) ->
  fst (disconnect fuel c) = Waiting.
Proof.
  intros Hwf Hrel Hup.
  destruct (unsubscribe_all_ok (_subscriptions c) c Hrel Hwf eq_refl)
    as (c1 & Hrun1 & _ & _).
  unfold disconnect. unfold bind at 1, read at 1.
  rewrite (bind_ok _ _ _ _ _ Hrun1).
  assert (Htx : _transmit (Some (value DISCONNECT)) None None c1
                = send_message (Frame (Some (value DISCONNECT)) [] None) c1)
    by reflexivity.
  rewrite send_message_ok in Htx by exact Hrel.
  rewrite (bind_ok _ _ _ _ _ Htx).
  match goal with |- context [bind (send_message (Text "CLOSE")) _ ?c2] =>
    pose proof (send_message_ok (Text "CLOSE") c2 Hrel) as Hsend end.
  rewrite (bind_ok _ _ _ _ _ Hsend).
  unfold bind at 1.
  match goal with |- context [wait_closed fuel ?c3] =>
    pose proof (wait_closed_blocks fuel c3 Hup) as Hwait;
    destruct (wait_closed fuel c3) as [[u|e|] c4] end;
    simpl in Hwait; try discriminate.
  reflexivity.
Qed.

Lemma wait_connected_sound (fuel : nat) : forall c c',
  wait_connected fuel c = (Ok tt, c') -> connected c' = true.
Proof.
  induction fuel as [|fuel IH]; intros c c' H; [discriminate |].
  cbn [wait_connected] in H. unfold bind at 1, read at 1 in H.
  destruct (connected c) eqn:Hup.
  - injection H as <-. exact Hup.
  - unfold bind in H. destruct (sleep c) as [[u|e|] c1]; try discriminate.
    now apply (IH c1).
Qed.

(** X23. [connect] only returns once the session is marked connected, that is
    once a CONNECTED frame has been dispatched; it never raises. *)
Theorem connect_returns_connected (fuel : nat) (c c' : client) (r : result unit) :
  connect fuel c = (r, c') ->
  (r = Ok tt -> connected c' = true) /\ (forall e, r <> Raise e).
Proof.
  unfold connect, bind, read, update. intros H. split.
  - intros ->. eapply wait_connected_sound. exact H.
  - intros e ->.
    assert (Hnr : forall n c0, fst (wait_connected n c0) <> Raise e).
    { induction n as [|n IH]; intros c0; [discriminate |].
      cbn [wait_connected]. unfold bind at 1, read at 1.
      destruct (connected c0); [discriminate |].
      unfold bind, sleep. destruct (wsh_sleep (ws c0)) as [w evs].
      pose proof (deliver_never_raises evs (tick (set_ws w c0))) as Hd.
      destruct (deliver evs (tick (set_ws w c0))) as [[u|e'|] c1]; simpl in *.
      - apply IH.
      - exfalso. now apply (Hd e').
      - discriminate. }
    apply (Hnr fuel (set_ws (wsh_connect (ws c)) c)). now rewrite H.
Qed.

End LifecycleMore.

(** ** The headers of the REST requests *)

Section RestMore.
Context {E : Env}.
Variable session_request :
  http_method -> string -> dict string -> option json -> result response.
Variable decode : string -> string.

Lemma get_update {V} k (add : dict V) : forall head,
  PyDict.get k (PyDict.update add head)
  = match PyDict.get k (rev add) with
    | Some v => Some v
    | None => PyDict.get k head
    end.
Proof.
  unfold PyDict.update.
  induction add as [|[k' v] add IH]; intros head; simpl; [reflexivity |].
  rewrite IH, get_app, get_set. simpl.
  destruct (PyDict.get k (rev add)); [reflexivity |].
  destruct (String.eqb k k'); reflexivity.
Qed.

Lemma get_rev_wf {V} k (d : dict V) :
  PyDict.wf d -> PyDict.get k (rev d) = PyDict.get k d.
Proof.
  unfold PyDict.wf.
  induction d as [|[k' v'] d IH]; simpl; intros Hwf; [reflexivity |].
  apply NoDup_cons_iff in Hwf as [Hnin Hwf].
  rewrite get_app, (IH Hwf). simpl.
  destruct (String.eqb_spec k k') as [->|Hne].
  - apply get_none_keys in Hnin. now rewrite Hnin.
  - destruct (PyDict.get k d); reflexivity.
Qed.

Lemma wf_update {V} (add : dict V) : forall head,
  PyDict.wf head -> PyDict.wf (PyDict.update add head).
Proof.
  unfold PyDict.update.
  induction add as [|[k v] add IH]; intros head Hwf; simpl; [exact Hwf |].
  apply IH. now apply wf_set.
Qed.

Lemma build_headers_get (head add : dict string) (k : string) :
  PyDict.wf add ->
  PyDict.get k (_build_headers head (Some add))
  = match PyDict.get k add with
    | Some v => Some v
    | None => PyDict.get k head
    end.
Proof.
  intros Hwf. destruct add as [|kv add]; [reflexivity |].
  cbn [_build_headers]. now rewrite get_update, get_rev_wf.
Qed.

(** X24. The headers of a request are the standard ones overridden by the
    additional ones: a key of the additional headers has their value, any
    other key keeps the standard value, and no key occurs twice. *)
Theorem build_headers_lookup (head add : dict string) :
  PyDict.wf head ->
  PyDict.wf add ->
  PyDict.wf (_build_headers head (Some add))
  /\ forall k,
       PyDict.get k (_build_headers head (Some add))
       = match PyDict.get k add with
         | Some v => Some v
         | None => PyDict.get k head
         end.
Proof.
  intros Hhead Hadd. split.
  - destruct add as [|kv add]; [exact Hhead |].
    cbn [_build_headers]. now apply wf_update.
  - intros k. now apply build_headers_get.
Qed.

(** X25. After [_set_header], a request carries the bearer token and the
    device id unless the caller's headers name these keys themselves. *)
Theorem standard_headers_sent (accept_json content_json device token : string)
    (add : dict string) :
  PyDict.wf add ->
  PyDict.get "Authorization" add = None ->
  PyDict.get "X-Device-Id" add = None ->
  let sent :=
    _build_headers (_set_header accept_json content_json device token) (Some add) in
  PyDict.get "Authorization" sent = Some ("Bearer " +:+ token)
  /\ PyDict.get "X-Device-Id" sent = Some device
  /\ forall k v, PyDict.get k add = Some v -> PyDict.get k sent = Some v.
Proof.
  intros Hwf Hauth Hdev. cbv zeta. repeat split.
  - now rewrite build_headers_get, Hauth.
  - now rewrite build_headers_get, Hdev.
  - intros k v Hk. now rewrite build_headers_get, Hk.
Qed.

(** X26. [delete] removes a truthy Accept from the caller's headers before the
    request is built, so the Accept that is sent is the standard one;
    every other header is sent as [_build_headers] would send it. *)
Theorem delete_drops_caller_accept (head hs : dict string)
    (v command url : string) :
  PyDict.wf hs ->
  PyDict.get "Accept" hs = Some v ->
  PyStr.truthy v = true ->
  exists sent,
    delete session_request decode head command url (Some hs)
    = read_response decode
        (session_request DELETE (url +:+ "/" +:+ command) sent None)
    /\ PyDict.get "Accept" sent = PyDict.get "Accept" head
    /\ forall k, k <> "Accept" ->
                 PyDict.get k sent
                 = PyDict.get k (_build_headers head (Some hs)).
Proof.
  intros Hwf Hget Htruthy.
  exists (_build_headers head (Some (PyDict.remove "Accept" hs))).
  destruct (wf_remove "Accept" hs Hwf) as [Hwf' Hnin].
  apply get_none_keys in Hnin. repeat split.
  - unfold delete, delete_guard.
    destruct hs as [|kv hs]; [discriminate |].
    now rewrite Hget, Htruthy.
  - now rewrite build_headers_get, Hnin.
  - intros k Hk. rewrite !build_headers_get by assumption.
    now rewrite get_remove_other.
Qed.

(** X27. [delete] with headers that do not name Accept raises [KeyError]
    before any request is made; without headers it makes the request. *)
Theorem delete_requires_accept (head hs : dict string) (command url : string) :
  hs <> [] ->
  PyDict.get "Accept" hs = None ->
  delete session_request decode head command url (Some hs)
  = Raise (KeyError "Accept")
  /\ delete session_request decode head command url None
     = read_response decode
         (session_request DELETE (url +:+ "/" +:+ command) head None).
Proof.
  intros Hne Hget. split; [|reflexivity].
  unfold delete, delete_guard.
  destruct hs as [|kv hs]; [congruence |]. now rewrite Hget.
Qed.

(** X28. Once the session has answered, [_request] never raises the decode
    error of [json.loads]: a content that is not JSON is returned as
    text, and an answer that is not ok gives [None]. *)
Theorem request_keeps_undecodable_text (head : dict string) (url : string)
    (headers : option (dict string)) (data : option json)
    (method : http_method) (resp : response) :
  session_request method url (_build_headers head headers) data = Ok resp ->
  _request session_request decode head url headers data method
  <> Raise JSONDecodeError
  /\ (ok resp = false ->
      _request session_request decode head url headers data method = Ok JNull)
  /\ (ok resp = true ->
      PyStr.truthy (content resp) = true ->
      json_loads (decode (content resp)) = Raise JSONDecodeError ->
      _request session_request decode head url headers data method
      = Ok (JStr (decode (content resp)))).
Proof.
  intros Hans. unfold _request, read_response. rewrite Hans. repeat split.
  - destruct (ok resp); [|discriminate].
    destruct (PyStr.truthy (content resp)); [|discriminate].
    destruct (json_loads (decode (content resp))) as [j|e|]; try discriminate.
    destruct e; discriminate.
  - now intros ->.
  - intros -> -> ->. reflexivity.
Qed.

End RestMore.

(** ** The websocket entry point, when it succeeds *)

Section WsMore.
Context {E : Env}.

Lemma in_keys_get {V} k (d : dict V) :
  PyDict.mem k d = true -> In k (PyDict.keys d).
Proof.
  unfold PyDict.mem. intros H.
  destruct (in_dec string_dec k (PyDict.keys d)) as [Hin|Hnin]; [exact Hin |].
  apply get_none_keys in Hnin. now rewrite Hnin in H.
Qed.

Lemma subscribe_keeps (d : string) (cb : Callback) (c c' : client) :
  subscribe d cb c = (Ok tt, c') ->
  connected c' = connected c
  /\ In d (PyDict.keys (_subscriptions c'))
  /\ forall x, In x (PyDict.keys (_subscriptions c)) ->
               In x (PyDict.keys (_subscriptions c')).
Proof.
  intros H. rewrite subscribe_run in H. cbv zeta in H.
  destruct (wsh_send_message _ _) as [[u|e|] w]; try discriminate.
  injection H as <-. simpl. rewrite keys_set.
  destruct (PyDict.mem d (_subscriptions c)) eqn:Hmem; repeat split.
  - now apply in_keys_get.
  - auto.
  - apply in_or_app. right. now left.
  - intros x Hx. apply in_or_app. now left.
Qed.

Lemma subscribe_vehicles_keeps (cb : Callback) (vins : list string) : forall c c',
  subscribe_vehicles vins cb c = (Ok tt, c') ->
  connected c' = connected c
  /\ (forall v, In v vins ->
                In (WS_DESTINATION_VIN v) (PyDict.keys (_subscriptions c')))
  /\ forall x, In x (PyDict.keys (_subscriptions c)) ->
               In x (PyDict.keys (_subscriptions c')).
Proof.
  induction vins as [|v vins IH]; intros c c' H.
  - injection H as <-. repeat split; [intros v [] | auto].
  - cbn [subscribe_vehicles] in H. unfold bind in H.
    destruct (subscribe (WS_DESTINATION_VIN v) cb c) as [[u|e|] c1] eqn:Hs;
      try discriminate.
    destruct u. destruct (subscribe_keeps _ _ _ _ Hs) as (Hc1 & Hin1 & Hmono1).
    destruct (IH c1 c' H) as (Hc & Hall & Hmono).
    repeat split.
    + congruence.
    + intros x [<-|Hx]; [now apply Hmono | now apply Hall].
    + intros x Hx. now apply Hmono, Hmono1.
Qed.

Lemma connect_sound (fuel : nat) (c c' : client) :
  connect fuel c = (Ok tt, c') -> connected c' = true.
Proof.
  unfold connect, bind, read, update. intros H.
  eapply wait_connected_sound. exact H.
Qed.

Lemma ws_connect_ok (fuel : nat) (k k' : connection) :
  ws_connect fuel k = (Ok tt, k') ->
  exists c,
    sc k' = Some c
    /\ _sc_task k' = true
    /\ requests k' = S (requests k)
    /\ connected c = true
    /\ In (WS_DESTINATION_DEVICE (conn_device_id k))
         (PyDict.keys (_subscriptions c))
    /\ forall v, In v (vehicles k) ->
                 In (WS_DESTINATION_VIN v) (PyDict.keys (_subscriptions c)).
Proof.
  unfold ws_connect. intros H.
  destruct (ws_message_callabck k) as [cb|]; [|discriminate].
  cbn [user_id conn_device_id conn_access_token conn_email vehicles requests
       _sc_task with_request] in H.
  destruct (request_websocket_url (user_id k) (conn_device_id k)) as [u|e|];
    try discriminate.
  destruct (connect fuel _) as [[[]|e|] c1] eqn:Hconn; try discriminate.
  unfold bind in H.
  destruct (subscribe _ cb c1) as [[[]|e|] c2] eqn:Hs1; try discriminate.
  destruct (subscribe_vehicles (vehicles k) cb c2) as [r c3] eqn:Hs2.
  injection H as -> <-.
  destruct (subscribe_keeps _ _ _ _ Hs1) as (Hc2 & Hin2 & _).
  destruct (subscribe_vehicles_keeps _ _ _ _ Hs2) as (Hc3 & Hall & Hmono).
  exists c3. repeat split; try assumption.
  - rewrite Hc3, Hc2. eapply connect_sound. exact Hconn.
  - now apply Hmono.
Qed.

(** X29. When [ws_connect] returns, one REST request has been issued, the
    STOMP client is marked connected, and the device destination and the
    destination of every vehicle are registered. *)
Theorem ws_connect_subscribes (fuel : nat) (k k' : connection) :
  ws_connect fuel k = (Ok tt, k') ->
  exists c,
    sc k' = Some c
    /\ requests k' = S (requests k)
    /\ connected c = true
    /\ In (WS_DESTINATION_DEVICE (conn_device_id k))
         (PyDict.keys (_subscriptions c))
    /\ forall v, In v (vehicles k) ->
                 In (WS_DESTINATION_VIN v) (PyDict.keys (_subscriptions c)).
Proof.
  intros H. destruct (ws_connect_ok fuel k k' H)
    as (c & Hsc & _ & Hreq & Hconn & Hdev & Hvin).
  exists c. repeat split; assumption.
Qed.

(** X30. [ws_disconnect] after a successful [ws_connect] does nothing: it
    returns at once and the connection, its STOMP client included, is as
    it was, still connected and subscribed. *)
Theorem ws_disconnect_does_nothing (fuel fuel' : nat) (k k' : connection) :
  ws_connect fuel k = (Ok tt, k') ->
  ws_disconnect fuel' k' = (Ok tt, k')
  /\ exists c, sc k' = Some c /\ connected c = true.
Proof.
  intros H. destruct (ws_connect_ok fuel k k' H)
    as (c & Hsc & Htask & _ & Hconn & _).
  split.
  - unfold ws_disconnect. now rewrite Htask.
  - exists c. now split.
Qed.

End WsMore.

(** ** The further properties on concrete inputs *)

Lemma heartbeats_echoed_witness :
  exists c',
    @feed loopback (repeat (PyStr.char PyStr.LF) 3) fresh_session = (Ok tt, c')
    /\ outbox c'
       = outbox fresh_session ++ repeat (Text (PyStr.char PyStr.LF)) 3
    /\ _subscriptions c' = _subscriptions fresh_session
    /\ connected c' = connected fresh_session
    /\ calls c' = calls fresh_session.
Proof.
  apply (@heartbeats_echoed loopback 3 fresh_session).
  intros text w. reflexivity.
Defined.

Lemma other_commands_ignored_witness :
  exists c',
    @_on_message loopback (inbound "CONNECTED" ["version:1.2"] "") fresh_session
    = (Ok tt, c')
    /\ outbox c' = outbox fresh_session
    /\ calls c' = calls fresh_session
    /\ _subscriptions c' = _subscriptions fresh_session
    /\ connected c' = true.
Proof.
  apply (@other_commands_ignored loopback
           (inbound "CONNECTED" ["version:1.2"] "") "CONNECTED"
           [("version", "1.2")] None fresh_session);
    first [reflexivity | discriminate].
Defined.

Lemma unregistered_destination_witness :
  @_on_message loopback (message_on_q status_text) fresh_session
  = (Raise (KeyError "/q"), fresh_session).
Proof.
  apply (@unregistered_destination loopback (message_on_q status_text)
           [("destination", "/q"); ("message-id", "42")]
           (status_text +:+ PyStr.char PyStr.NULL)
           [("v", JStr "VIN123"); ("a", JDict [("k", JInt 1)])] fresh_session);
    first [reflexivity | discriminate].
Defined.

Lemma missing_message_id_witness :
  exists c',
    @_on_message loopback (inbound "MESSAGE" ["destination:/q"] status_text)
      subscribed_session
    = (Raise (KeyError "message-id"), c')
    /\ calls c'
       = calls subscribed_session
         ++ [{| callee := listener;
                argument := status_on_q (JStr "VIN123") (JDict [("k", JInt 1)]);
                awaited := false |}]
    /\ outbox c' = outbox subscribed_session.
Proof.
  apply (@missing_message_id loopback
           (inbound "MESSAGE" ["destination:/q"] status_text)
           [("destination", "/q")]
           (status_text +:+ PyStr.char PyStr.NULL)
           [("v", JStr "VIN123"); ("a", JDict [("k", JInt 1)])]
           "/q" {| sub_id := 1; callback := listener |}
           (status_on_q (JStr "VIN123") (JDict [("k", JInt 1)]))
           subscribed_session);
    first [reflexivity | discriminate].
Defined.

Lemma callback_exception_propagates_witness :
  exists c',
    @_on_message loopback (message_on_q status_text) faulty_session
    = (Raise (CallbackError "boom"), c')
    /\ List.length (calls c') = S (List.length (calls faulty_session))
    /\ outbox c' = outbox faulty_session.
Proof.
  apply (@callback_exception_propagates loopback (message_on_q status_text)
           [("destination", "/q"); ("message-id", "42")]
           (status_text +:+ PyStr.char PyStr.NULL)
           [("v", JStr "VIN123"); ("a", JDict [("k", JInt 1)])]
           "/q" {| sub_id := 1; callback := faulty |}
           (status_on_q (JStr "VIN123") (JDict [("k", JInt 1)]))
           (CallbackError "boom") faulty_session);
    first [reflexivity | discriminate].
Defined.

Lemma non_string_vin_witness :
  exists c',
    @_on_message loopback (message_on_q numeric_vin_text) subscribed_session
    = (Raise TypeError, c')
    /\ List.length (calls c') = S (List.length (calls subscribed_session))
    /\ outbox c' = outbox subscribed_session.
Proof.
  apply (@non_string_vin loopback (message_on_q numeric_vin_text)
           [("destination", "/q"); ("message-id", "42")]
           (numeric_vin_text +:+ PyStr.char PyStr.NULL)
           [("v", JInt 7)] "/q" "42" {| sub_id := 1; callback := listener |}
           (status_on_q (JInt 7) (JDict [("v", JInt 7)]))
           subscribed_session);
    first [reflexivity | discriminate].
Defined.

Lemma scalar_body_rejected_witness :
  @_on_message loopback_more (message_on_q "7") subscribed_more
  = (Raise AttributeError, subscribed_more).
Proof.
  apply (@scalar_body_rejected loopback_more (message_on_q "7")
           [("destination", "/q"); ("message-id", "42")]
           ("7" +:+ PyStr.char PyStr.NULL) (JInt 7) subscribed_more);
    first [reflexivity | discriminate].
Defined.

Lemma empty_body_rejected_witness :
  @_on_message loopback (message_on_q "") subscribed_session
  = (Raise TypeError, subscribed_session).
Proof.
  apply (@empty_body_rejected loopback (message_on_q "")
           [("destination", "/q"); ("message-id", "42")] subscribed_session);
    first [reflexivity | discriminate].
Defined.

Lemma batch_stops_at_non_object_witness :
  exists c' new,
    @_on_message loopback_more (message_on_q mixed_batch_text) subscribed_more
    = (Raise AttributeError, c')
    /\ calls c' = calls subscribed_more ++ new
    /\ Forall2 (call_for (clock subscribed_more)
                  [("destination", "/q"); ("message-id", "42")] listener)
         [JDict [("v", JStr "V1")]] new
    /\ outbox c' = outbox subscribed_more.
Proof.
  apply (@batch_stops_at_non_object loopback_more
           (message_on_q mixed_batch_text)
           [("destination", "/q"); ("message-id", "42")]
           (mixed_batch_text +:+ PyStr.char PyStr.NULL)
           [JDict [("v", JStr "V1")]] [JDict [("v", JStr "V3")]] (JInt 7)
           "/q" {| sub_id := 1; callback := listener |} subscribed_more);
    first [reflexivity | discriminate].
Defined.

Lemma empty_batch_accepted_witness :
  @_on_message loopback_more (message_on_q "[]") unsubscribed_more
  = (Ok tt, unsubscribed_more).
Proof.
  apply (@empty_batch_accepted loopback_more (message_on_q "[]")
           [("destination", "/q"); ("message-id", "42")]
           ("[]" +:+ PyStr.char PyStr.NULL) unsubscribed_more);
    first [reflexivity | discriminate].
Defined.

Lemma body_round_trip_witness :
  exists parsed,
    _parse_message
      (frame_text (Some (value SEND)) (Some [("destination", "/q")])
         (Some status_text))
    = Ok (value SEND, insert_all [("destination", "/q")] [], Some parsed)
    /\ parsed <> status_text
    /\ _filter_non_printable (Some parsed) = Ok status_text.
Proof.
  apply (body_round_trip SEND [("destination", "/q")] status_text);
    first [reflexivity | discriminate].
Defined.

Lemma frame_has_one_terminator_witness :
  occurrences PyStr.NULL
    (frame_text (Some "SEND") (Some [("destination", "/q")]) (Some "{}")) = 1
  /\ exists s,
       frame_text (Some "SEND") (Some [("destination", "/q")]) (Some "{}")
       = s +:+ PyStr.char PyStr.NULL.
Proof.
  apply (frame_has_one_terminator "SEND" [("destination", "/q")] (Some "{}")).
  reflexivity.
Defined.

Lemma headerless_frame_unparsable_witness :
  _parse_message (frame_text (Some (value DISCONNECT)) (Some []) None)
  = Raise ValueError
  \/ _parse_message (frame_text (Some (value DISCONNECT)) (Some []) None)
     = Raise IndexError.
Proof.
  apply (headerless_frame_unparsable DISCONNECT None).
  intros b Hb. discriminate.
Defined.

Lemma repeated_header_last_wins_witness :
  exists headers,
    _parse_message
      (inbound "MESSAGE"
         (map raw_header [("destination", "/a"); ("destination", "/b")]) "{}")
    = Ok (PyStr.strip "MESSAGE", headers,
          Some ("{}" +:+ PyStr.char PyStr.NULL))
    /\ forall k,
         PyDict.get k headers
         = PyDict.get k (rev [("destination", "/a"); ("destination", "/b")]).
Proof.
  apply (repeated_header_last_wins "MESSAGE" "{}"
           [("destination", "/a"); ("destination", "/b")]);
    reflexivity.
Defined.

Lemma transmit_rejects_non_string_witness :
  @_transmit loopback (Some (value SEND))
    (Some [("destination", JStr "/q"); ("vin", JInt 7)]) None fresh_session
  = (Raise TypeError, fresh_session).
Proof.
  apply (@transmit_rejects_non_string loopback (Some (value SEND))
           [("destination", JStr "/q"); ("vin", JInt 7)] None "vin" (JInt 7)
           fresh_session).
  - right. left. reflexivity.
  - intros s0. discriminate.
Defined.

Lemma send_sets_destination_witness :
  exists c' sent,
    @send loopback "/app/x" [("destination", JStr "/old"); ("vin", JStr "V1")]
      (Some "{}") fresh_session
    = (Ok tt, c')
    /\ outbox c'
       = outbox fresh_session ++ [Frame (Some (value SEND)) sent (Some "{}")]
    /\ PyDict.get "destination" sent = Some "/app/x"
    /\ (forall k, k <> "destination" ->
                  PyDict.get k sent
                  = PyDict.get k [("destination", "/old"); ("vin", "V1")]).
Proof.
  apply (@send_sets_destination loopback "/app/x"
           [("destination", JStr "/old"); ("vin", JStr "V1")]
           [("destination", "/old"); ("vin", "V1")] (Some "{}") fresh_session).
  - intros text w. reflexivity.
  - reflexivity.
Defined.

Lemma other_destinations_untouched_witness :
  PyDict.get "/q"
    (_subscriptions (snd (@run_op loopback (Unsubscribe "/other")
                            subscribed_session)))
  = PyDict.get "/q" (_subscriptions subscribed_session).
Proof.
  apply (@other_destinations_untouched loopback (Unsubscribe "/other")
           subscribed_session "/q").
  discriminate.
Defined.

Lemma subscribe_then_unsubscribe_witness :
  exists c',
    bind (@subscribe loopback "/r" listener)
      (fun _ => @unsubscribe loopback "/r") subscribed_session
    = (Ok tt, c')
    /\ _subscriptions c' = _subscriptions subscribed_session
    /\ outbox c'
       = outbox subscribed_session
         ++ [subscribe_frame (device_id subscribed_session)
               (_get_next_sub_id (_subscriptions subscribed_session)) "/r";
             unsubscribe_frame
               (PyDict.set "/r"
                  {| sub_id := _get_next_sub_id (_subscriptions subscribed_session);
                     callback := listener |}
                  (_subscriptions subscribed_session))].
Proof.
  apply (@subscribe_then_unsubscribe loopback "/r" listener subscribed_session).
  - intros text w. reflexivity.
  - reflexivity.
Defined.

Lemma disconnect_unsubscribes_all_witness :
  exists c',
    @disconnect loopback 1 subscribed_session = (Ok tt, c')
    /\ outbox c'
       = outbox subscribed_session
         ++ map unsubscribe_frame (suffixes (_subscriptions subscribed_session))
         ++ [Frame (Some (value DISCONNECT)) [] None; Text "CLOSE"]
    /\ List.length (outbox c')
       = List.length (outbox subscribed_session)
         + List.length (_subscriptions subscribed_session) + 2
    /\ _subscriptions c' = []
    /\ connected c' = false.
Proof.
  apply (@disconnect_unsubscribes_all loopback subscribed_session 1 0).
  - repeat constructor. simpl. tauto.
  - intros text w. reflexivity.
  - intros w. left. reflexivity.
  - lia.
Defined.

Lemma disconnect_blocks_witness :
  fst (@disconnect stuck 50 stuck_session) = Waiting.
Proof.
  apply (@disconnect_blocks stuck stuck_session 50).
  - repeat constructor. simpl. tauto.
  - intros text w. reflexivity.
  - intros w. reflexivity.
Defined.

Lemma connect_returns_connected_witness :
  (Ok tt = Ok tt ->
   connected
     (snd (@connect handshake 2
             (@new_client handshake "wss://localhost/v2?dev" "token"
                "me@example.org" "dev"))) = true)
  /\ (forall e, Ok tt <> Raise e).
Proof.
  apply (@connect_returns_connected handshake 2
           (@new_client handshake "wss://localhost/v2?dev" "token"
              "me@example.org" "dev")).
  reflexivity.
Defined.

Lemma build_headers_lookup_witness :
  PyDict.wf (_build_headers standard_head (Some caller_headers))
  /\ forall k,
       PyDict.get k (_build_headers standard_head (Some caller_headers))
       = match PyDict.get k caller_headers with
         | Some v => Some v
         | None => PyDict.get k standard_head
         end.
Proof.
  apply (build_headers_lookup standard_head caller_headers).
  - repeat constructor; simpl; intuition discriminate.
  - repeat constructor; simpl; intuition discriminate.
Defined.

Lemma standard_headers_sent_witness :
  PyDict.get "Authorization"
    (_build_headers (_set_header "application/json" "application/json" "dev" "token")
       (Some caller_headers))
  = Some ("Bearer " +:+ "token")
  /\ PyDict.get "X-Device-Id"
       (_build_headers
          (_set_header "application/json" "application/json" "dev" "token")
          (Some caller_headers))
     = Some "dev"
  /\ forall k v,
       PyDict.get k caller_headers = Some v ->
       PyDict.get k
         (_build_headers
            (_set_header "application/json" "application/json" "dev" "token")
            (Some caller_headers))
       = Some v.
Proof.
  apply (standard_headers_sent "application/json" "application/json" "dev"
           "token" caller_headers).
  - repeat constructor; simpl; intuition discriminate.
  - reflexivity.
  - reflexivity.
Defined.

Lemma delete_drops_caller_accept_witness :
  exists sent,
    @delete loopback (answering true "") (fun text => text) standard_head
      "VIN123" "https://host/vehicles" (Some caller_headers)
    = @read_response loopback (fun text => text)
        (answering true "" DELETE ("https://host/vehicles" +:+ "/" +:+ "VIN123")
           sent None)
    /\ PyDict.get "Accept" sent = PyDict.get "Accept" standard_head
    /\ forall k, k <> "Accept" ->
                 PyDict.get k sent
                 = PyDict.get k (_build_headers standard_head (Some caller_headers)).
Proof.
  apply (@delete_drops_caller_accept loopback (answering true "")
           (fun text => text) standard_head caller_headers "text/plain"
           "VIN123" "https://host/vehicles").
  - repeat constructor; simpl; intuition discriminate.
  - reflexivity.
  - reflexivity.
Defined.

Lemma delete_requires_accept_witness :
  @delete loopback (answering true "") (fun text => text) standard_head
    "VIN123" "https://host/vehicles" (Some [("X-Requested-With", "aiojlrpy")])
  = Raise (KeyError "Accept")
  /\ @delete loopback (answering true "") (fun text => text) standard_head
       "VIN123" "https://host/vehicles" None
     = @read_response loopback (fun text => text)
         (answering true "" DELETE ("https://host/vehicles" +:+ "/" +:+ "VIN123")
            standard_head None).
Proof.
  apply (@delete_requires_accept loopback (answering true "")
           (fun text => text) standard_head
           [("X-Requested-With", "aiojlrpy")] "VIN123" "https://host/vehicles").
  - discriminate.
  - reflexivity.
Defined.

Lemma request_keeps_undecodable_text_witness :
  @_request loopback (answering true "wss://host") (fun text => text)
    standard_head "https://host/ws" None None GET
  = Ok (JStr "wss://host").
Proof.
  refine (proj2 (proj2
            (@request_keeps_undecodable_text loopback
               (answering true "wss://host") (fun text => text) standard_head
               "https://host/ws" None None GET
               {| ok := true; content := "wss://host" |} _)) _ _ _);
    reflexivity.
Defined.

Lemma ws_connect_subscribes_witness :
  exists c,
    sc (snd (@ws_connect handshake 2 configured)) = Some c
    /\ requests (snd (@ws_connect handshake 2 configured))
       = S (requests configured)
    /\ connected c = true
    /\ In (@WS_DESTINATION_DEVICE handshake (conn_device_id configured))
         (PyDict.keys (_subscriptions c))
    /\ forall v, In v (vehicles configured) ->
                 In (@WS_DESTINATION_VIN handshake v)
                   (PyDict.keys (_subscriptions c)).
Proof.
  apply (@ws_connect_subscribes handshake 2 configured
           (snd (@ws_connect handshake 2 configured))).
  reflexivity.
Defined.

Lemma ws_disconnect_does_nothing_witness :
  @ws_disconnect handshake 5 (snd (@ws_connect handshake 2 configured))
  = (Ok tt, snd (@ws_connect handshake 2 configured))
  /\ exists c,
       sc (snd (@ws_connect handshake 2 configured)) = Some c
       /\ connected c = true.
Proof.
  apply (@ws_disconnect_does_nothing handshake 2 5 configured
           (snd (@ws_connect handshake 2 configured))).
  reflexivity.
Defined.
